(** * check-no-cyrillic.py: a shallow embedding and its properties

    The script [.github/scripts/check-no-cyrillic.py] resolves a diff range
    from the CI environment, asks git for the changed files, keeps the
    existing text files, scans every line of each for a character of the
    Cyrillic block and prints a report.

    Python strings are sequences of Unicode code points; they are modelled
    as lists of code points ([N]).  Everything the script obtains from its
    host (environment variables, the git subprocess, the file system and the
    [pathlib] / [str] methods whose tables are not reproduced here) is a
    field of the record [Host].  Exceptions and the observable effects
    (subprocess calls, file reads, printed lines) are threaded through a
    small writer-and-exception monad [M]. *)

From Stdlib Require Import List NArith Arith Bool String Ascii Lia.
From Stdlib Require Import DecimalNat.
Import ListNotations.

Local Open Scope N_scope.

(** ** Python strings *)

Module Py.

(** A code point. *)
Definition char := N.

(** A Python [str]. *)
Definition str := list char.

(** A literal of the source, written as a Rocq string of ASCII characters. *)
Definition lit (s : string) : str :=
  List.map N_of_ascii (list_ascii_of_string s).

(** [a == b] on strings. *)
Fixpoint str_eqb (a b : str) : bool :=
  match a, b with
  | [], [] => true
  | x :: a', y :: b' => (x =? y) && str_eqb a' b'
  | _, _ => false
  end.

(** Truthiness of a string or list: [if s:]. *)
Definition truthy {A : Type} (l : list A) : bool :=
  match l with [] => false | _ :: _ => true end.

(** [x in xs] for a collection of strings. *)
Definition str_in (x : str) (xs : list str) : bool :=
  existsb (str_eqb x) xs.

(** [str.isspace] on one code point: the ASCII whitespace table of CPython
    and the code points [_PyUnicode_IsWhitespace] accepts. *)
Definition is_space (c : char) : bool :=
  ((0x09 <=? c) && (c <=? 0x0D)) || ((0x1C <=? c) && (c <=? 0x20))
  || (c =? 0x85) || (c =? 0xA0) || (c =? 0x1680)
  || ((0x2000 <=? c) && (c <=? 0x200A))
  || (c =? 0x2028) || (c =? 0x2029) || (c =? 0x202F) || (c =? 0x205F)
  || (c =? 0x3000).

(** The line boundaries of [str.splitlines] ([_PyUnicode_IsLinebreak]). *)
Definition is_linebreak (c : char) : bool :=
  ((0x0A <=? c) && (c <=? 0x0D)) || ((0x1C <=? c) && (c <=? 0x1E))
  || (c =? 0x85) || (c =? 0x2028) || (c =? 0x2029).

Fixpoint lstrip (s : str) : str :=
  match s with
  | [] => []
  | c :: s' => if is_space c then lstrip s' else s
  end.

Definition rstrip (s : str) : str := rev (lstrip (rev s)).

(** [s.strip()] without argument. *)
Definition strip (s : str) : str := rstrip (lstrip s).

(** [s.splitlines()]: the lines without their terminators; a carriage
    return followed by a line feed is one terminator, and a terminator at
    the very end opens no further line. *)
Fixpoint splitlines (s : str) : list str :=
  match s with
  | [] => []
  | c :: rest =>
      if is_linebreak c then
        [] :: match rest with
              | c' :: rest' =>
                  if (c =? 0x0D) && (c' =? 0x0A) then splitlines rest'
                  else splitlines rest
              | [] => []
              end
      else
        match splitlines rest with
        | [] => [[c]]
        | l :: ls => (c :: l) :: ls
        end
  end.

(** The decimal digits of a [Decimal.uint] as code points. *)
Fixpoint digits (d : Decimal.uint) : str :=
  match d with
  | Decimal.Nil => []
  | Decimal.D0 d => 0x30 :: digits d
  | Decimal.D1 d => 0x31 :: digits d
  | Decimal.D2 d => 0x32 :: digits d
  | Decimal.D3 d => 0x33 :: digits d
  | Decimal.D4 d => 0x34 :: digits d
  | Decimal.D5 d => 0x35 :: digits d
  | Decimal.D6 d => 0x36 :: digits d
  | Decimal.D7 d => 0x37 :: digits d
  | Decimal.D8 d => 0x38 :: digits d
  | Decimal.D9 d => 0x39 :: digits d
  end.

(** [str(n)] for a non-negative integer. *)
Definition str_of_nat (n : nat) : str := digits (Nat.to_uint n).

(** [s[:n]]. *)
Definition slice_to (n : nat) (s : str) : str := firstn n s.

(** [enumerate(xs, start)]. *)
Fixpoint enumerate {A : Type} (start : nat) (xs : list A) : list (nat * A) :=
  match xs with
  | [] => []
  | x :: xs' => (start, x) :: enumerate (S start) xs'
  end.

End Py.

Import Py.

(** ** Effects *)

(** The two exceptions the script can meet: [subprocess.CalledProcessError]
    (raised by [subprocess.run(..., check=True)] on a non-zero exit status)
    and [OSError] (raised by [Path.read_text]). *)
Inductive exn : Type :=
  | CalledProcessError (returncode : N)
  | OSError.

(** What a run does to the outside, in order. *)
Inductive event : Type :=
  | EvGit (args : list str)      (* subprocess.run(["git", *args], ...) *)
  | EvRead (path : str)          (* path.read_text(...) *)
  | EvPrint (line : str).        (* print(line) *)

Inductive outcome (A : Type) : Type :=
  | Return (a : A)
  | Raise (e : exn).
Arguments Return {A} a.
Arguments Raise {A} e.

(** A computation: the events it performed and how it ended. *)
Definition M (A : Type) : Type := list event * outcome A.

Definition ret {A : Type} (a : A) : M A := ([], Return a).

Definition raise {A : Type} (e : exn) : M A := ([], Raise e).

Definition emit (e : event) : M unit := ([e], Return tt).

Definition bind {A B : Type} (m : M A) (k : A -> M B) : M B :=
  match m with
  | (t, Return a) => let (t', r) := k a in (t ++ t', r)
  | (t, Raise e) => (t, Raise e)
  end.

(** [try: body except OSError: handler]. *)
Definition try_except_OSError {A : Type} (body : M A) (handler : M A) : M A :=
  match body with
  | (t, Raise OSError) => let (t', r) := handler in (t ++ t', r)
  | other => other
  end.

Declare Scope py_scope.
Delimit Scope py_scope with py.
Notation "x <- m ;; k" := (bind m (fun x => k))
  (at level 61, m at next level, right associativity) : py_scope.
Notation "m ;; k" := (bind m (fun _ => k))
  (at level 61, right associativity) : py_scope.

(** The lines written to standard output, in order. *)
Fixpoint stdout (t : list event) : list str :=
  match t with
  | [] => []
  | EvPrint l :: t' => l :: stdout t'
  | _ :: t' => stdout t'
  end.

(** The paths whose text was read, in order. *)
Fixpoint reads (t : list event) : list str :=
  match t with
  | [] => []
  | EvRead p :: t' => p :: reads t'
  | _ :: t' => reads t'
  end.

(** The git invocations, in order. *)
Fixpoint git_calls (t : list event) : list (list str) :=
  match t with
  | [] => []
  | EvGit a :: t' => a :: git_calls t'
  | _ :: t' => git_calls t'
  end.

(** ** The host *)

(** A path is identified by the string [Path(raw)] was built from. *)
Record Host : Type := {
  (** [os.environ]. *)
  environ : str -> option str;
  (** exit status and standard output of [git args]. *)
  git : list str -> N * str;
  (** [Path(raw).exists()]. *)
  path_exists : str -> bool;
  (** [Path(raw).is_dir()]. *)
  path_is_dir : str -> bool;
  (** [Path(raw).read_text(encoding="utf-8", errors="ignore")]: the decoded
      text, or [None] when it raises [OSError]. *)
  read_text : str -> option str;
  (** [Path(raw).suffix]. *)
  path_suffix : str -> str;
  (** [str(Path(raw))]. *)
  path_str : str -> str;
  (** [s.lower()]. *)
  str_lower : str -> str
}.

(** ** The script *)

Definition CYRILLIC_PATTERN : N * N := (0x0400, 0x04FF).

(** [pattern.search(line)] for a one-range character class: is there a
    character of the range anywhere in the line. *)
Definition search (pattern : N * N) (line : str) : bool :=
  existsb (fun c => (fst pattern <=? c) && (c <=? snd pattern)) line.

Definition TEXT_EXTENSIONS : list str :=
  [ lit ".java"; lit ".kt"; lit ".kts"; lit ".groovy"; lit ".xml";
    lit ".yml"; lit ".yaml"; lit ".md"; lit ".txt"; lit ".properties";
    lit ".json"; lit ".ts"; lit ".tsx"; lit ".js"; lit ".jsx"; lit ".css";
    lit ".scss"; lit ".html"; lit ".sql"; lit ".sh"; lit ".py" ].

Section Script.

Variable h : Host.

Local Open Scope py_scope.

(** [os.getenv(name, default)]. *)
Definition getenv (name default : str) : str :=
  match environ h name with
  | Some v => v
  | None => default
  end.

Definition run_git_command (args : list str) : M str :=
  emit (EvGit args) ;;
  let (returncode, out) := git h args in
  if returncode =? 0 then ret (strip out)
  else raise (CalledProcessError returncode).

(** The statements of [resolve_diff_range] below its first [if]. *)
Definition resolve_push_range : str :=
  let before_sha := getenv (lit "GITHUB_EVENT_BEFORE") [] in
  let github_sha := getenv (lit "GITHUB_SHA") [] in
  if truthy before_sha
     && negb (str_eqb before_sha (lit "0000000000000000000000000000000000000000"))
     && truthy github_sha
  then before_sha ++ lit "..." ++ github_sha
  else lit "HEAD~1...HEAD".

Definition resolve_diff_range : str :=
  let event_name := getenv (lit "GITHUB_EVENT_NAME") [] in
  if str_eqb event_name (lit "pull_request") then
    let base_ref := getenv (lit "GITHUB_BASE_REF") [] in
    if truthy base_ref then
      let base_branch := lit "origin/" ++ base_ref in
      base_branch ++ lit "...HEAD"
    else resolve_push_range
  else resolve_push_range.

(** The [for raw in output.splitlines()] loop of [list_changed_files]. *)
Fixpoint changed_paths_loop (raws : list str) (changed_paths : list str) : list str :=
  match raws with
  | [] => changed_paths
  | raw :: raws' =>
      if negb (truthy raw) then changed_paths_loop raws' changed_paths
      else
        let path := raw in
        if negb (path_exists h path) || path_is_dir h path then
          changed_paths_loop raws' changed_paths
        else if str_in (str_lower h (path_suffix h path)) TEXT_EXTENSIONS then
          changed_paths_loop raws' (changed_paths ++ [path])
        else changed_paths_loop raws' changed_paths
  end.

Definition list_changed_files (diff_range : str) : M (list str) :=
  output <- run_git_command [lit "diff"; lit "--name-only"; diff_range] ;;
  if negb (truthy output) then ret []
  else ret (changed_paths_loop (splitlines output) []).

(** [preview = line.strip()], cut to 177 characters and an ellipsis when it
    is longer than 180. *)
Definition make_preview (line : str) : str :=
  let preview := strip line in
  if (180 <? List.length preview)%nat then slice_to 177 preview ++ lit "..."
  else preview.

(** [f"{path}:{index}: {preview}"]. *)
Definition format_violation (path : str) (index : nat) (preview : str) : str :=
  path_str h path ++ lit ":" ++ str_of_nat index ++ lit ": " ++ preview.

(** The [for index, line in enumerate(lines, start=1)] loop of [scan_file]. *)
Fixpoint scan_lines (path : str) (ilines : list (nat * str)) (violations : list str)
  : list str :=
  match ilines with
  | [] => violations
  | (index, line) :: rest =>
      if search CYRILLIC_PATTERN line then
        scan_lines path rest
          (violations ++ [format_violation path index (make_preview line)])
      else scan_lines path rest violations
  end.

(** [path.read_text(...)] as a computation. *)
Definition path_read_text (path : str) : M str :=
  emit (EvRead path) ;;
  match read_text h path with
  | Some text => ret text
  | None => raise OSError
  end.

Definition scan_file (path : str) : M (list str) :=
  let violations := [] in
  r <- try_except_OSError
         (text <- path_read_text path ;; ret (Some (splitlines text)))
         (ret None) ;;
  match r with
  | None => ret violations
  | Some lines => ret (scan_lines path (enumerate 1 lines) violations)
  end.

(** The [for file_path in changed_files] loop of [main]. *)
Fixpoint scan_all (changed_files : list str) (all_violations : list str)
  : M (list str) :=
  match changed_files with
  | [] => ret all_violations
  | file_path :: rest =>
      vs <- scan_file file_path ;;
      scan_all rest (all_violations ++ vs)
  end.

Definition print (line : str) : M unit := emit (EvPrint line).

(** The [for violation in all_violations] loop of [main]. *)
Fixpoint print_violations (all_violations : list str) : M unit :=
  match all_violations with
  | [] => ret tt
  | violation :: rest =>
      print (lit "- " ++ violation) ;; print_violations rest
  end.

Definition main : M nat :=
  let diff_range := resolve_diff_range in
  changed_files <- list_changed_files diff_range ;;
  if negb (truthy changed_files) then
    print (lit "No changed text files to scan.") ;;
    ret 0%nat
  else
    all_violations <- scan_all changed_files [] ;;
    if truthy all_violations then
      print (lit "Cyrillic characters detected in changed files:") ;;
      print_violations all_violations ;;
      print (lit "Use English for PR descriptions, code comments, logs, and user-facing text in changed files.") ;;
      ret 1%nat
    else
      print (lit "No Cyrillic characters detected in changed files.") ;;
      ret 0%nat.

(** [if __name__ == "__main__": sys.exit(main())]: the events of the run and
    the exit status of the process.  An exception that leaves [main] is
    reported by the interpreter on standard error and the process ends with
    status 1. *)
Definition script : list event * nat :=
  match main with
  | (t, Return status) => (t, status)
  | (t, Raise _) => (t, 1%nat)
  end.

End Script.

(** ** A host to run the script on

    POSIX path names already in normal form (so [str(Path(raw))] is [raw]),
    the suffix rule of [pathlib.PurePath], lowering of ASCII letters, an
    environment and a file system given as association lists, and one
    answer of git to every invocation. *)

Module Fake.

Fixpoint assoc {A : Type} (k : str) (l : list (str * A)) : option A :=
  match l with
  | [] => None
  | (k', v) :: l' => if str_eqb k k' then Some v else assoc k l'
  end.

(** The final component of a path: what follows the last slash. *)
Fixpoint name (raw : str) : str :=
  match raw with
  | [] => []
  | c :: rest =>
      if existsb (N.eqb 0x2F) rest then name rest
      else if c =? 0x2F then rest else raw
  end.

(** [s[i:]] for the last full stop [i] of [s], if there is one. *)
Fixpoint from_last_dot (s : str) : option str :=
  match s with
  | [] => None
  | c :: rest =>
      match from_last_dot rest with
      | Some t => Some t
      | None => if c =? 0x2E then Some s else None
      end
  end.

(** [PurePath.suffix]: the last full stop of the name and what follows it,
    unless the name starts with that full stop or ends with it. *)
Definition suffix (raw : str) : str :=
  let n := name raw in
  match from_last_dot n with
  | Some t =>
      if (List.length t <? List.length n)%nat && (1 <? List.length t)%nat then t
      else []
  | None => []
  end.

Definition lower_ascii (s : str) : str :=
  List.map (fun c => if (0x41 <=? c) && (c <=? 0x5A) then c + 32 else c) s.

(** [files] maps a path to [Some text] (a readable file), or to [None] (a
    file that exists and cannot be read); [dirs] lists the directories. *)
Definition host (env : list (str * str)) (git_answer : N * str)
    (files : list (str * option str)) (dirs : list str) : Host :=
  {| environ := fun k => assoc k env;
     git := fun _ => git_answer;
     path_exists := fun p =>
       match assoc p files with Some _ => true | None => str_in p dirs end;
     path_is_dir := fun p => str_in p dirs;
     read_text := fun p =>
       match assoc p files with Some (Some t) => Some t | _ => None end;
     path_suffix := suffix;
     path_str := fun p => p;
     str_lower := lower_ascii |}.

End Fake.

(** ** Concrete inputs *)

(** Three lines, the third with one Cyrillic letter. *)
Definition text_b : str :=
  lit "x = 1" ++ [0x0A] ++ lit "y = 2" ++ [0x0A] ++ lit "z = '" ++ [0x0436] ++ lit "'" ++ [0x0A].

(** The spec's end-to-end scenario A: [a.md] is clean, [b.py] has one
    Cyrillic letter on line 3. *)
Definition host_A : Host :=
  Fake.host [] (0, lit "a.md" ++ [0x0A] ++ lit "b.py" ++ [0x0A])
    [ (lit "a.md", Some (lit "# title" ++ [0x0A])); (lit "b.py", Some text_b) ]
    [].

(** Environments of a pull request, of a push, of a first push (the before
    reference is the null commit) and of a pull request without base. *)
Definition env_pull_request : list (str * str) :=
  [ (lit "GITHUB_EVENT_NAME", lit "pull_request"); (lit "GITHUB_BASE_REF", lit "main");
    (lit "GITHUB_EVENT_BEFORE", lit "abc"); (lit "GITHUB_SHA", lit "def") ].

Definition env_push : list (str * str) :=
  [ (lit "GITHUB_EVENT_NAME", lit "push");
    (lit "GITHUB_EVENT_BEFORE", lit "abc"); (lit "GITHUB_SHA", lit "def") ].

Definition env_first_push : list (str * str) :=
  [ (lit "GITHUB_EVENT_NAME", lit "push");
    (lit "GITHUB_EVENT_BEFORE", lit "0000000000000000000000000000000000000000");
    (lit "GITHUB_SHA", lit "def") ].

Definition env_pull_request_no_base : list (str * str) :=
  [ (lit "GITHUB_EVENT_NAME", lit "pull_request"); (lit "GITHUB_BASE_REF", []);
    (lit "GITHUB_EVENT_BEFORE", lit "abc"); (lit "GITHUB_SHA", lit "def") ].

(** A changed-file listing with a clean file, a binary file that contains a
    Cyrillic letter, a deleted file, a blank line, a directory and a file
    with an upper-case extension. *)
Definition host_5 : Host :=
  Fake.host []
    (0, [0x0A] ++ lit "a.md" ++ [0x0A] ++ lit "img.png" ++ [0x0A] ++ lit "gone.py"
          ++ [0x0A; 0x0A] ++ lit "pkg.py" ++ [0x0A] ++ lit "B.PY" ++ [0x0A])
    [ (lit "a.md", Some (lit "ok")); (lit "img.png", Some [0x0416]);
      (lit "B.PY", Some (lit "pass")) ]
    [ lit "pkg.py" ].

(** A file that exists and cannot be read, between two readable files. *)
Definition host_7 : Host :=
  Fake.host [] (0, lit "a.py" ++ [0x0A] ++ lit "locked.py" ++ [0x0A] ++ lit "c.py")
    [ (lit "a.py", Some [0x0416]); (lit "locked.py", None);
      (lit "c.py", Some [0x0417]) ]
    [].

(** A host whose git exits with status 128 (not a repository), with no
    environment variable set and an empty file system. *)
Definition host_git_fails : Host := Fake.host [] (128, []) [] [].

(** A line of 181 characters: one Cyrillic letter and 180 spaces. *)
Definition padded_line : str := 0x0416 :: repeat 0x20 180.

(** A line of 181 Cyrillic letters. *)
Definition long_line : str := repeat 0x0416 181.

(** Scenario C: one changed file, clean. *)
Definition host_C : Host :=
  Fake.host [] (0, lit "a.md") [(lit "a.md", Some (lit "ok"))] [].

(** Two hosts with the same four CI variables, and different other
    variables, git answers and file systems. *)
Definition host_push : Host := Fake.host env_push (0, []) [] [].

Definition host_push_elsewhere : Host :=
  Fake.host (env_push ++ [(lit "GITHUB_REF", lit "refs/heads/main")])
    (128, lit "fatal") [(lit "a.py", Some [0x0416])] [lit "docs"].

(** Two changed files, the first with a name that starts with a space and
    with a Cyrillic letter in its text.  Git prints such a name as it is,
    and, sorting by bytes, before the other names of its directory. *)
Definition host_leading_space : Host :=
  Fake.host [] (0, lit " a.py" ++ [0x0A] ++ lit "b.py" ++ [0x0A])
    [ (lit " a.py", Some [0x0416]); (lit "b.py", Some (lit "ok")) ]
    [].

(** The same files after a first line that names no existing file (the
    quoted name git prints for a deleted file whose name starts with a
    tab): the name with the space is now on the second line. *)
Definition host_leading_space_second : Host :=
  Fake.host []
    (0, [0x22] ++ lit "\tx.py" ++ [0x22; 0x0A] ++ lit " a.py" ++ [0x0A] ++ lit "b.py" ++ [0x0A])
    [ (lit " a.py", Some [0x0416]); (lit "b.py", Some (lit "ok")) ]
    [].

(** ** Vocabulary of the statements *)

Definition is_digit (c : char) : Prop := 0x30 <= c <= 0x39.

Definition in_cyrillic_block (c : char) : Prop := 0x0400 <= c <= 0x04FF.

Definition null_sha : str := lit "0000000000000000000000000000000000000000".

Definition diff_args (diff_range : str) : list str :=
  [lit "diff"; lit "--name-only"; diff_range].

Definition msg_nothing : str := lit "No changed text files to scan.".
Definition msg_clean : str := lit "No Cyrillic characters detected in changed files.".
Definition msg_header : str := lit "Cyrillic characters detected in changed files:".
Definition msg_closing : str :=
  lit "Use English for PR descriptions, code comments, logs, and user-facing text in changed files.".

(** The text does not start with whitespace. *)
Definition no_leading_space (s : str) : Prop :=
  match s with
  | [] => True
  | c :: _ => is_space c = false
  end.

(** The text neither starts nor ends with whitespace. *)
Definition trimmed (s : str) : Prop :=
  no_leading_space s /\ no_leading_space (rev s).

Section Vocabulary.

Variable h : Host.

(** A line of the enumeration that the pattern matches. *)
Definition offending (il : nat * str) : bool := search CYRILLIC_PATTERN (snd il).

(** The record the scanner appends for an offending line. *)
Definition record_of (path : str) (il : nat * str) : str :=
  format_violation h path (fst il) (make_preview (snd il)).

(** What [scan_file] returns for a path. *)
Definition violations_of (path : str) : list str :=
  match read_text h path with
  | Some text => scan_lines h path (enumerate 1 (splitlines text)) []
  | None => []
  end.

(** The filter of [list_changed_files] on one line of the diff output. *)
Definition kept (raw : str) : bool :=
  truthy raw && path_exists h raw && negb (path_is_dir h raw)
  && str_in (str_lower h (path_suffix h raw)) TEXT_EXTENSIONS.

End Vocabulary.

(** ** Runs on concrete inputs *)

Example splitlines_ex1 :
  splitlines (lit "ab" ++ [0x0D; 0x0A] ++ lit "c" ++ [0x0A; 0x0A]) = [lit "ab"; lit "c"; []].
Proof. reflexivity. Qed.

Example splitlines_ex2 : splitlines [0x0D] = [[]] /\ splitlines (lit "x") = [lit "x"].
Proof. split; reflexivity. Qed.

Example strip_ex : strip ([0x20; 0x09] ++ lit "a b" ++ [0x20; 0xA0; 0x0A]) = lit "a b".
Proof. reflexivity. Qed.

Example str_of_nat_ex : str_of_nat 120 = lit "120" /\ str_of_nat 0 = lit "0".
Proof. split; reflexivity. Qed.

Example suffix_ex :
  Fake.suffix (lit "src/a.tar.GZ") = lit ".GZ" /\ Fake.suffix (lit "d.x/.bashrc") = []
  /\ Fake.suffix (lit "a.") = [] /\ Fake.suffix (lit "a.py") = lit ".py".
Proof. repeat split; reflexivity. Qed.

Example scenario_A :
  script host_A =
    ( [ EvGit [lit "diff"; lit "--name-only"; lit "HEAD~1...HEAD"];
        EvRead (lit "a.md"); EvRead (lit "b.py");
        EvPrint (lit "Cyrillic characters detected in changed files:");
        EvPrint (lit "- b.py:3: z = '" ++ [0x0436] ++ lit "'");
        EvPrint (lit "Use English for PR descriptions, code comments, logs, and user-facing text in changed files.") ],
      1%nat ).
Proof. vm_compute. reflexivity. Qed.

Example resolve_diff_range_ex :
  resolve_diff_range (Fake.host env_pull_request (0, []) [] []) = lit "origin/main...HEAD"
  /\ resolve_diff_range (Fake.host env_push (0, []) [] []) = lit "abc...def"
  /\ resolve_diff_range (Fake.host env_first_push (0, []) [] []) = lit "HEAD~1...HEAD"
  /\ resolve_diff_range (Fake.host env_pull_request_no_base (0, []) [] []) = lit "abc...def"
  /\ resolve_diff_range (Fake.host [] (0, []) [] []) = lit "HEAD~1...HEAD".
Proof. repeat split; reflexivity. Qed.

(** Scenario B: nothing changed. *)
Example scenario_B :
  script (Fake.host [] (0, []) [] []) =
    ( [ EvGit [lit "diff"; lit "--name-only"; lit "HEAD~1...HEAD"];
        EvPrint (lit "No changed text files to scan.") ], 0%nat ).
Proof. vm_compute. reflexivity. Qed.

(** Scenario C: every changed file is clean. *)
Example scenario_C :
  script (Fake.host [] (0, lit "a.md") [(lit "a.md", Some (lit "ok"))] []) =
    ( [ EvGit [lit "diff"; lit "--name-only"; lit "HEAD~1...HEAD"];
        EvRead (lit "a.md");
        EvPrint (lit "No Cyrillic characters detected in changed files.") ], 0%nat ).
Proof. vm_compute. reflexivity. Qed.

(** ** Strings and lists *)

Lemma str_eqb_eq (a b : str) : str_eqb a b = true <-> a = b.
Proof.
  revert b; induction a as [|x a IH]; intros [|y b]; simpl;
    split; try congruence; try discriminate.
  - rewrite andb_true_iff, N.eqb_eq, IH. intros [-> ->]; reflexivity.
  - intros E; injection E as -> ->. rewrite N.eqb_refl; simpl.
    apply IH; reflexivity.
Qed.

Lemma str_eqb_neq (a b : str) : str_eqb a b = false <-> a <> b.
Proof.
  rewrite <- str_eqb_eq. destruct (str_eqb a b); split; congruence.
Qed.

Lemma truthy_iff {A : Type} (l : list A) : truthy l = true <-> l <> [].
Proof. destruct l; simpl; split; congruence. Qed.

Lemma truthy_false_iff {A : Type} (l : list A) : truthy l = false <-> l = [].
Proof. destruct l; simpl; split; congruence. Qed.

Lemma str_in_iff (x : str) (xs : list str) : str_in x xs = true <-> In x xs.
Proof.
  unfold str_in. rewrite existsb_exists. split.
  - intros [y [Hy E]]. apply str_eqb_eq in E. subst; assumption.
  - intros Hx. exists x. split; [assumption | apply str_eqb_eq; reflexivity].
Qed.

Lemma enumerate_In {A : Type} (xs : list A) (start k : nat) (x : A) :
  In (k, x) (enumerate start xs) <->
  (start <= k)%nat /\ nth_error xs (k - start) = Some x.
Proof.
  revert start; induction xs as [|y xs IH]; intros start; simpl.
  - split; [tauto | intros [_ E]]. destruct (k - start)%nat; discriminate.
  - rewrite IH. split.
    + intros [E | [Hle E]].
      * injection E as -> ->. split; [lia|]. now rewrite Nat.sub_diag.
      * split; [lia|]. replace (k - start)%nat with (S (k - S start)) by lia.
        exact E.
    + intros [Hle E]. destruct (Nat.eq_dec start k) as [->|Hne].
      * left. rewrite Nat.sub_diag in E. simpl in E. congruence.
      * right. split; [lia|].
        replace (k - start)%nat with (S (k - S start)) in E by lia. exact E.
Qed.

Lemma skipn_app_exact {A : Type} (l1 l2 : list A) (n : nat) :
  List.length l1 = n -> skipn n (l1 ++ l2) = l2.
Proof. intros <-. induction l1 as [|x l1 IH]; simpl; auto. Qed.

Lemma firstn_app_exact {A : Type} (l1 l2 : list A) (n : nat) :
  List.length l1 = n -> firstn n (l1 ++ l2) = l1.
Proof. intros <-. induction l1 as [|x l1 IH]; simpl; [|rewrite IH]; auto. Qed.

(** ** Decimal numerals *)

Lemma digits_are_digits (d : Decimal.uint) : Forall is_digit (digits d).
Proof.
  induction d; simpl; constructor; try assumption; unfold is_digit; lia.
Qed.

Lemma digits_inj (d1 d2 : Decimal.uint) : digits d1 = digits d2 -> d1 = d2.
Proof.
  revert d2; induction d1; intros d2; destruct d2; simpl; intros E;
    try discriminate; try reflexivity;
    injection E as E; f_equal; apply IHd1; exact E.
Qed.

Lemma str_of_nat_inj (n m : nat) : str_of_nat n = str_of_nat m -> n = m.
Proof.
  unfold str_of_nat. intros E. apply digits_inj in E.
  rewrite <- (Unsigned.of_to n), <- (Unsigned.of_to m). now rewrite E.
Qed.

(** Two texts that start with digits up to a colon agree on the digits and
    on what follows the colon. *)
Lemma digits_then_colon (d1 d2 r1 r2 : str) :
  Forall is_digit d1 -> Forall is_digit d2 ->
  d1 ++ 0x3A :: r1 = d2 ++ 0x3A :: r2 -> d1 = d2 /\ r1 = r2.
Proof.
  intros H1; revert d2; induction H1 as [|c d1 Hc H1 IH]; intros d2 H2 E.
  - destruct H2 as [|c' d2 Hc' H2]; simpl in E.
    + injection E as ->. split; reflexivity.
    + injection E as E _. unfold is_digit in Hc'. lia.
  - destruct H2 as [|c' d2 Hc' H2]; simpl in E.
    + injection E as E _. unfold is_digit in Hc. lia.
    + injection E as -> E. destruct (IH d2 H2 E) as [-> ->].
      split; reflexivity.
Qed.

(** ** The pattern and the preview *)

Lemma search_iff (line : str) :
  search CYRILLIC_PATTERN line = true <-> exists c, In c line /\ in_cyrillic_block c.
Proof.
  unfold search, in_cyrillic_block. rewrite existsb_exists. simpl.
  split; intros [c [Hc Hr]]; exists c; split; try assumption.
  - apply andb_true_iff in Hr. destruct Hr as [Hlo Hhi].
    apply N.leb_le in Hlo, Hhi. lia.
  - apply andb_true_iff. split; apply N.leb_le; lia.
Qed.

Lemma search_false_iff (line : str) :
  search CYRILLIC_PATTERN line = false <-> forall c, In c line -> ~ in_cyrillic_block c.
Proof.
  split.
  - intros Hs c Hc Hr.
    assert (search CYRILLIC_PATTERN line = true) by (apply search_iff; eauto).
    congruence.
  - intros Hall. destruct (search CYRILLIC_PATTERN line) eqn:Hs; [|reflexivity].
    apply search_iff in Hs. destruct Hs as [c [Hc Hr]]. now apply Hall in Hc.
Qed.

Lemma make_preview_short (line : str) :
  (List.length (strip line) <= 180)%nat -> make_preview line = strip line.
Proof.
  intros Hlen. unfold make_preview.
  destruct (Nat.ltb_spec 180 (List.length (strip line))); [lia | reflexivity].
Qed.

Lemma make_preview_long (line : str) :
  (180 < List.length (strip line))%nat ->
  make_preview line = firstn 177 (strip line) ++ lit "...".
Proof.
  intros Hlen. unfold make_preview, slice_to.
  destruct (Nat.ltb_spec 180 (List.length (strip line))); [reflexivity | lia].
Qed.

Lemma make_preview_length (line : str) :
  (List.length (make_preview line) <= 180)%nat.
Proof.
  destruct (Nat.le_gt_cases (List.length (strip line)) 180) as [Hle | Hgt].
  - now rewrite make_preview_short.
  - rewrite make_preview_long by assumption.
    rewrite length_app, firstn_length_le by lia. simpl. lia.
Qed.

(** ** The scanner *)

Section Scanner.

Variable h : Host.

Lemma scan_lines_filter (path : str) (ilines : list (nat * str)) (acc : list str) :
  scan_lines h path ilines acc = acc ++ map (record_of h path) (filter offending ilines).
Proof.
  revert acc; induction ilines as [|[k line] rest IH]; intros acc; simpl.
  - now rewrite app_nil_r.
  - unfold offending at 1; simpl. destruct (search CYRILLIC_PATTERN line).
    + rewrite IH, <- app_assoc. reflexivity.
    + apply IH.
Qed.

Lemma format_violation_inj (path : str) (k1 k2 : nat) (p1 p2 : str) :
  format_violation h path k1 p1 = format_violation h path k2 p2 ->
  k1 = k2 /\ p1 = p2.
Proof.
  unfold format_violation. intros E. apply app_inv_head in E.
  change (lit ":") with [0x3A] in E. change (lit ": ") with [0x3A; 0x20] in E.
  simpl in E. injection E as E.
  apply digits_then_colon in E; try apply digits_are_digits.
  destruct E as [Ek Ep]. injection Ep as ->.
  split; [now apply str_of_nat_inj | reflexivity].
Qed.

Lemma scan_file_eq (path : str) :
  scan_file h path = ([EvRead path], Return (violations_of h path)).
Proof.
  unfold scan_file, violations_of, path_read_text, try_except_OSError, bind, emit, ret, raise.
  destruct (read_text h path); reflexivity.
Qed.

Lemma scan_all_eq (files : list str) (acc : list str) :
  scan_all h files acc =
  (map EvRead files, Return (acc ++ flat_map (violations_of h) files)).
Proof.
  revert acc; induction files as [|p files IH]; intros acc; simpl.
  - unfold ret. now rewrite app_nil_r.
  - rewrite scan_file_eq. unfold bind. rewrite IH. simpl.
    now rewrite <- app_assoc.
Qed.

End Scanner.

(** ** The change lister and the reporter *)

Section Pipeline.

Variable h : Host.

Lemma changed_paths_loop_filter (raws acc : list str) :
  changed_paths_loop h raws acc = acc ++ filter (kept h) raws.
Proof.
  revert acc; induction raws as [|raw raws IH]; intros acc;
    cbn [changed_paths_loop filter].
  - now rewrite app_nil_r.
  - unfold kept at 1.
    destruct (truthy raw); cbn [negb andb orb]; [|apply IH].
    destruct (path_exists h raw); cbn [negb andb orb]; [|apply IH].
    destruct (path_is_dir h raw); cbn [negb andb orb]; [apply IH|].
    destruct (str_in (str_lower h (path_suffix h raw)) TEXT_EXTENSIONS);
      [|apply IH].
    rewrite IH, <- app_assoc. reflexivity.
Qed.

Lemma run_git_command_ok (args : list str) (out : str) :
  git h args = (0, out) ->
  run_git_command h args = ([EvGit args], Return (strip out)).
Proof. unfold run_git_command, bind, emit. now intros ->. Qed.

Lemma run_git_command_fails (args : list str) (rc : N) (out : str) :
  git h args = (rc, out) -> rc <> 0 ->
  run_git_command h args = ([EvGit args], Raise (CalledProcessError rc)).
Proof.
  unfold run_git_command, bind, emit. intros -> Hrc.
  apply N.eqb_neq in Hrc. now rewrite Hrc.
Qed.

Lemma list_changed_files_ok (diff_range out : str) :
  git h (diff_args diff_range) = (0, out) ->
  list_changed_files h diff_range =
  ([EvGit (diff_args diff_range)], Return (filter (kept h) (splitlines (strip out)))).
Proof.
  intros Hgit. unfold list_changed_files. fold (diff_args diff_range).
  rewrite (run_git_command_ok _ _ Hgit). unfold bind.
  destruct (strip out) eqn:Hout; simpl; [reflexivity|].
  now rewrite changed_paths_loop_filter.
Qed.

Lemma list_changed_files_fails (diff_range out : str) (rc : N) :
  git h (diff_args diff_range) = (rc, out) -> rc <> 0 ->
  list_changed_files h diff_range =
  ([EvGit (diff_args diff_range)], Raise (CalledProcessError rc)).
Proof.
  intros Hgit Hrc. unfold list_changed_files. fold (diff_args diff_range).
  now rewrite (run_git_command_fails _ _ _ Hgit Hrc).
Qed.

(** The listing always performs exactly one git invocation. *)
Lemma list_changed_files_trace (diff_range : str) :
  fst (list_changed_files h diff_range) = [EvGit (diff_args diff_range)].
Proof.
  destruct (git h (diff_args diff_range)) as [rc out] eqn:Hgit.
  destruct (N.eq_dec rc 0) as [-> | Hrc].
  - now rewrite (list_changed_files_ok _ _ Hgit).
  - now rewrite (list_changed_files_fails _ _ _ Hgit Hrc).
Qed.

Lemma print_violations_eq (vs : list str) :
  print_violations vs = (map (fun v => EvPrint (lit "- " ++ v)) vs, Return tt).
Proof.
  induction vs as [|v vs IH]; simpl; [reflexivity|].
  unfold bind, print, emit. rewrite IH. reflexivity.
Qed.

(** The run of [main] once the listing has returned [files]. *)
Lemma main_after_listing (files : list str) :
  snd (list_changed_files h (resolve_diff_range h)) = Return files ->
  main h =
  let git_ev := EvGit (diff_args (resolve_diff_range h)) in
  let vs := flat_map (violations_of h) files in
  match files, vs with
  | [], _ => ([git_ev; EvPrint msg_nothing], Return 0%nat)
  | _ :: _, [] =>
      (git_ev :: map EvRead files ++ [EvPrint msg_clean], Return 0%nat)
  | _ :: _, _ :: _ =>
      (git_ev :: map EvRead files
         ++ EvPrint msg_header :: map (fun v => EvPrint (lit "- " ++ v)) vs
         ++ [EvPrint msg_closing],
       Return 1%nat)
  end.
Proof.
  intros Hlist. unfold main.
  pose proof (list_changed_files_trace (resolve_diff_range h)) as Htr.
  destruct (list_changed_files h (resolve_diff_range h)) as [t r].
  simpl in Hlist, Htr. subst t r. unfold bind at 1.
  destruct files as [|f files]; [reflexivity|].
  cbn [truthy negb]. rewrite scan_all_eq. cbn [app]. unfold bind at 1.
  set (vs := flat_map (violations_of h) (f :: files)).
  destruct vs as [|v vs]; [reflexivity|].
  cbn [truthy]. unfold bind, print, emit. rewrite print_violations_eq.
  cbn [app]. reflexivity.
Qed.

Lemma main_listing_fails (out : str) (rc : N) :
  git h (diff_args (resolve_diff_range h)) = (rc, out) -> rc <> 0 ->
  main h = ([EvGit (diff_args (resolve_diff_range h))], Raise (CalledProcessError rc)).
Proof.
  intros Hgit Hrc. unfold main.
  now rewrite (list_changed_files_fails _ _ _ Hgit Hrc).
Qed.

Lemma stdout_app (t1 t2 : list event) : stdout (t1 ++ t2) = stdout t1 ++ stdout t2.
Proof.
  induction t1 as [|[a|p|l] t1 IH]; simpl;
    [reflexivity | exact IH | exact IH | now rewrite IH].
Qed.

Lemma stdout_reads (ps : list str) : stdout (map EvRead ps) = [].
Proof. induction ps as [|p ps IH]; simpl; [reflexivity | exact IH]. Qed.

Lemma stdout_prints (ls : list str) (f : str -> str) :
  stdout (map (fun v => EvPrint (f v)) ls) = map f ls.
Proof. induction ls as [|l ls IH]; simpl; [reflexivity | now rewrite IH]. Qed.

Lemma reads_app (t1 t2 : list event) : reads (t1 ++ t2) = reads t1 ++ reads t2.
Proof.
  induction t1 as [|[a|p|l] t1 IH]; simpl;
    [reflexivity | exact IH | now rewrite IH | exact IH].
Qed.

Lemma reads_reads (ps : list str) : reads (map EvRead ps) = ps.
Proof. induction ps as [|p ps IH]; simpl; [reflexivity | now rewrite IH]. Qed.

Lemma reads_prints (ls : list str) (f : str -> str) :
  reads (map (fun v => EvPrint (f v)) ls) = [].
Proof. induction ls as [|l ls IH]; simpl; [reflexivity | exact IH]. Qed.

End Pipeline.

(** Every character of a line of [splitlines s] is a character of [s]. *)
Lemma splitlines_chars_bounded (n : nat) :
  forall s : str, (List.length s <= n)%nat ->
  forall line c, In line (splitlines s) -> In c line -> In c s.
Proof.
  induction n as [|n IH]; intros [|c0 rest] Hlen line c Hline Hc;
    simpl in Hlen, Hline; try contradiction; try lia.
  destruct (is_linebreak c0).
  - destruct Hline as [<- | Hline]; [contradiction|]. right.
    destruct rest as [|c1 rest1]; [contradiction|].
    destruct ((c0 =? 0x0D) && (c1 =? 0x0A)).
    + right. apply (IH rest1) with (line := line); simpl in Hlen; auto; lia.
    + apply (IH (c1 :: rest1)) with (line := line); auto; lia.
  - destruct (splitlines rest) as [|l ls] eqn:Hrest.
    + destruct Hline as [<- | []]. destruct Hc as [<- | []]. now left.
    + destruct Hline as [<- | Hline].
      * destruct Hc as [<- | Hc]; [now left | right].
        apply (IH rest) with (line := l); [lia | | exact Hc].
        rewrite Hrest. now left.
      * right. apply (IH rest) with (line := line); [lia | | exact Hc].
        rewrite Hrest. now right.
Qed.

Lemma splitlines_chars (s line : str) (c : char) :
  In line (splitlines s) -> In c line -> In c s.
Proof. apply (splitlines_chars_bounded (List.length s)). lia. Qed.

(** ** The claims *)

(** C9: the disallowed-character test matches exactly the inclusive range
    U+0400..U+04FF.  For every line the pattern is found, and the scanner
    produces a violation for the line, if and only if some character of the
    line lies in that range; a line made of characters outside the range
    yields nothing, and neither U+0500 nor any ASCII character is flagged. *)
Theorem C9_pattern_is_exactly_the_block (h : Host) (path : str) (k : nat) (line : str) :
  (search CYRILLIC_PATTERN line = true <->
     exists c, In c line /\ 0x0400 <= c <= 0x04FF)
  /\ (scan_lines h path [(k, line)] [] <> [] <->
        exists c, In c line /\ 0x0400 <= c <= 0x04FF)
  /\ ((forall c, In c line -> c < 0x0400 \/ 0x04FF < c) ->
        scan_lines h path [(k, line)] [] = [])
  /\ search CYRILLIC_PATTERN [0x0500] = false
  /\ (forall c, c < 0x80 -> search CYRILLIC_PATTERN [c] = false).
Proof.
  pose proof (search_iff line) as Hs. unfold in_cyrillic_block in Hs.
  repeat split.
  - apply Hs.
  - apply Hs.
  - intros Hne. apply Hs. simpl in Hne.
    destruct (search CYRILLIC_PATTERN line); [reflexivity | now elim Hne].
  - intros Hex. apply Hs in Hex. simpl. rewrite Hex. discriminate.
  - intros Hout. simpl.
    destruct (search CYRILLIC_PATTERN line); [|reflexivity].
    destruct (proj1 Hs eq_refl) as [c [Hc Hr]]. apply Hout in Hc. lia.
  - intros c Hc. unfold search, CYRILLIC_PATTERN; simpl.
    rewrite orb_false_r. apply andb_false_iff. left. apply N.leb_gt. lia.
Qed.

(** C10: every preview has at most 180 characters; the trimmed line is kept
    unchanged when it has at most 180 characters (exactly 180 included, with
    no ellipsis), and becomes its first 177 characters followed by [...]
    when it has more; every record the scanner produces carries such a
    preview. *)
Theorem C10_preview_bound (h : Host) (path : str) (ilines : list (nat * str)) (line : str) :
  (List.length (make_preview line) <= 180)%nat
  /\ ((List.length (strip line) <= 180)%nat -> make_preview line = strip line)
  /\ ((List.length (strip line) = 180)%nat ->
        make_preview line = strip line /\ List.length (make_preview line) = 180%nat)
  /\ ((180 < List.length (strip line))%nat ->
        make_preview line = firstn 177 (strip line) ++ lit "...")
  /\ Forall (fun v => exists k l preview,
                 In (k, l) ilines
                 /\ v = path_str h path ++ lit ":" ++ str_of_nat k ++ lit ": " ++ preview
                 /\ preview = make_preview l
                 /\ (List.length preview <= 180)%nat)
       (scan_lines h path ilines []).
Proof.
  split; [apply make_preview_length|].
  split; [apply make_preview_short|].
  split.
  { intros E. rewrite make_preview_short by lia. split; [reflexivity | exact E]. }
  split; [apply make_preview_long|].
  rewrite scan_lines_filter. simpl. apply Forall_forall. intros v Hv.
  apply in_map_iff in Hv. destruct Hv as [[k l] [<- Hin]].
  apply filter_In in Hin. destruct Hin as [Hin _].
  exists k, l, (make_preview l). repeat split; try assumption.
  apply make_preview_length.
Qed.

(** C2, as stated, fails: [padded_line] is longer than 180 characters and
    contains a Cyrillic letter, and its preview is that single letter. *)
Lemma C2_counterexample :
  List.length padded_line = 181%nat
  /\ search CYRILLIC_PATTERN padded_line = true
  /\ scan_lines host_A (lit "b.py") [(1%nat, padded_line)] []
     = [lit "b.py:1: " ++ [0x0416]]
  /\ make_preview padded_line = [0x0416]
  /\ List.length (make_preview padded_line) <> 180%nat.
Proof. vm_compute. repeat split; discriminate. Qed.

(** C2, amended: for every line whose whitespace-trimmed text is longer than
    180 characters and that contains a disallowed character, the scanner
    produces a record whose preview has exactly 180 characters: the first
    177 characters of the trimmed text followed by [...]. *)
Theorem C2_long_trimmed_line (h : Host) (path : str) (k : nat) (line : str) :
  (180 < List.length (strip line))%nat ->
  search CYRILLIC_PATTERN line = true ->
  exists preview,
    scan_lines h path [(k, line)] []
    = [path_str h path ++ lit ":" ++ str_of_nat k ++ lit ": " ++ preview]
    /\ List.length preview = 180%nat
    /\ skipn 177 preview = lit "..."
    /\ firstn 177 preview = firstn 177 (strip line).
Proof.
  intros Hlen Hs. exists (make_preview line). cbn [scan_lines]. rewrite Hs.
  split; [reflexivity|]. rewrite (make_preview_long _ Hlen).
  assert (Hf : List.length (firstn 177 (strip line)) = 177%nat)
    by (apply firstn_length_le; lia).
  split; [|split].
  - rewrite length_app, Hf. reflexivity.
  - now apply skipn_app_exact.
  - now apply firstn_app_exact.
Qed.

(** A line of 181 Cyrillic letters at line 7 of [b.py]. *)
Lemma C2_long_trimmed_line_witness :
  (180 < List.length (strip long_line))%nat
  /\ search CYRILLIC_PATTERN long_line = true
  /\ exists preview,
       scan_lines host_A (lit "b.py") [(7%nat, long_line)] []
       = [lit "b.py:7: " ++ preview]
       /\ List.length preview = 180%nat
       /\ skipn 177 preview = lit "..."
       /\ firstn 177 preview = firstn 177 (strip long_line).
Proof.
  assert (H1 : (180 < List.length (strip long_line))%nat)
    by (vm_compute; repeat constructor).
  assert (H2 : search CYRILLIC_PATTERN long_line = true) by reflexivity.
  split; [exact H1 | split; [exact H2|]].
  exact (C2_long_trimmed_line host_A (lit "b.py") 7 long_line H1 H2).
Defined.

(** C1: for a file the scanner reads, with [lines] the lines of its decoded
    text, the scanner returns, in line order, one record per line that
    contains a character of the disallowed range: there is a record for
    line [k] (1-based) if and only if line [k] contains such a character;
    the record carries the line number [k] and, as its preview, the trimmed
    line or its first 177 characters followed by [...]; a text without such
    a character yields no violation. *)
Theorem C1_scan_file_records (h : Host) (path text : str) :
  read_text h path = Some text ->
  let lines := splitlines text in
  let record k line :=
    path_str h path ++ lit ":" ++ str_of_nat k ++ lit ": " ++ make_preview line in
  exists vs,
    snd (scan_file h path) = Return vs
    /\ vs = map (fun il => record (fst il) (snd il))
              (filter (fun il => search CYRILLIC_PATTERN (snd il)) (enumerate 1 lines))
    /\ (forall k line,
          (1 <= k)%nat -> nth_error lines (k - 1) = Some line ->
          (In (record k line) vs <-> exists c, In c line /\ 0x0400 <= c <= 0x04FF))
    /\ (forall v, In v vs ->
          exists k line,
            (1 <= k)%nat /\ nth_error lines (k - 1) = Some line
            /\ (exists c, In c line /\ 0x0400 <= c <= 0x04FF)
            /\ v = record k line)
    /\ (forall line,
          make_preview line = strip line
          \/ make_preview line = firstn 177 (strip line) ++ lit "...")
    /\ ((forall c, In c text -> c < 0x0400 \/ 0x04FF < c) -> vs = []).
Proof.
  intros Hread lines record.
  exists (violations_of h path). rewrite scan_file_eq.
  unfold violations_of. rewrite Hread. fold lines.
  rewrite scan_lines_filter. cbn [app snd].
  assert (Hmem : forall v,
             In v (map (record_of h path) (filter offending (enumerate 1 lines))) ->
             exists k line,
               (1 <= k)%nat /\ nth_error lines (k - 1) = Some line
               /\ search CYRILLIC_PATTERN line = true /\ v = record k line).
  { intros v Hv. apply in_map_iff in Hv. destruct Hv as [[k line] [<- Hin]].
    apply filter_In in Hin. destruct Hin as [Hin Hoff].
    apply enumerate_In in Hin. destruct Hin as [Hk Hnth].
    exists k, line. repeat split; assumption. }
  split; [reflexivity|]. split; [reflexivity|]. split; [|split; [|split]].
  - intros k line Hk Hnth. rewrite <- (search_iff line). split.
    + intros Hin. apply Hmem in Hin.
      destruct Hin as (k' & line' & Hk' & Hnth' & Hs' & E).
      apply format_violation_inj in E. destruct E as [<- _].
      congruence.
    + intros Hs. apply in_map_iff. exists (k, line). split; [reflexivity|].
      apply filter_In. split; [|exact Hs].
      apply enumerate_In. split; assumption.
  - intros v Hv. apply Hmem in Hv.
    destruct Hv as (k & line & Hk & Hnth & Hs & E).
    exists k, line. repeat split; try assumption.
    apply search_iff in Hs. exact Hs.
  - intros line.
    destruct (Nat.le_gt_cases (List.length (strip line)) 180) as [Hle | Hgt].
    + left. now apply make_preview_short.
    + right. now apply make_preview_long.
  - intros Hclean.
    destruct (map (record_of h path) (filter offending (enumerate 1 lines)))
      as [|v vs] eqn:Hvs; [reflexivity|].
    destruct (Hmem v (or_introl eq_refl)) as (k & line & _ & Hnth & Hs & _).
    apply search_iff in Hs. destruct Hs as [c [Hc Hr]].
    apply nth_error_In in Hnth.
    apply (splitlines_chars text line c Hnth) in Hc.
    apply Hclean in Hc. unfold in_cyrillic_block in Hr. lia.
Qed.

(** The scan of [b.py] in scenario A: one record, for line 3. *)
Lemma C1_scan_file_records_witness :
  read_text host_A (lit "b.py") = Some text_b
  /\ exists vs,
       snd (scan_file host_A (lit "b.py")) = Return vs
       /\ vs = [lit "b.py:3: z = '" ++ [0x0436] ++ lit "'"].
Proof.
  split; [reflexivity|].
  destruct (C1_scan_file_records host_A (lit "b.py") text_b eq_refl)
    as (vs & Hret & Hvs & _).
  exists vs. split; [exact Hret|]. rewrite Hvs. reflexivity.
Defined.

(** C4: the range resolver is total and its result is never empty.  With the
    event name, base branch, before reference and current revision read
    from the environment (an absent variable reads as the empty string):
    on a [pull_request] event with a non-empty base branch the result is
    [origin/<base>...HEAD]; otherwise, with a non-empty before reference
    other than the all-zero commit and a non-empty current revision, it is
    [<before>...<current>]; otherwise it is [HEAD~1...HEAD], in particular
    when no variable is set at all. *)
Theorem C4_resolve_diff_range (h : Host) :
  let event_name := getenv h (lit "GITHUB_EVENT_NAME") [] in
  let base_ref := getenv h (lit "GITHUB_BASE_REF") [] in
  let before_sha := getenv h (lit "GITHUB_EVENT_BEFORE") [] in
  let github_sha := getenv h (lit "GITHUB_SHA") [] in
  let pull_request := event_name = lit "pull_request" /\ base_ref <> [] in
  let push := before_sha <> [] /\ before_sha <> null_sha /\ github_sha <> [] in
  resolve_diff_range h <> []
  /\ (pull_request ->
        resolve_diff_range h = (lit "origin/" ++ base_ref) ++ lit "...HEAD")
  /\ (~ pull_request -> push ->
        resolve_diff_range h = before_sha ++ lit "..." ++ github_sha)
  /\ (~ pull_request -> ~ push -> resolve_diff_range h = lit "HEAD~1...HEAD")
  /\ ((forall name, environ h name = None) ->
        resolve_diff_range h = lit "HEAD~1...HEAD").
Proof.
  intros event_name base_ref before_sha github_sha pull_request push.
  assert (Hpush : (push -> resolve_push_range h = before_sha ++ lit "..." ++ github_sha)
                  /\ (~ push -> resolve_push_range h = lit "HEAD~1...HEAD")
                  /\ resolve_push_range h <> []).
  { unfold resolve_push_range, push. fold before_sha github_sha null_sha.
    destruct (truthy before_sha) eqn:Hb; cbn [andb].
    - destruct (str_eqb before_sha null_sha) eqn:Hn; cbn [andb negb].
      + apply str_eqb_eq in Hn. repeat split; try tauto. discriminate.
      + apply str_eqb_neq in Hn. destruct (truthy github_sha) eqn:Hg.
        * apply truthy_iff in Hb, Hg. repeat split; try tauto.
          destruct before_sha; [congruence | discriminate].
        * apply truthy_false_iff in Hg. repeat split; try tauto. discriminate.
    - apply truthy_false_iff in Hb. repeat split; try tauto. discriminate. }
  destruct Hpush as (Hp1 & Hp2 & Hp3).
  assert (Hpr : (pull_request ->
                   resolve_diff_range h = (lit "origin/" ++ base_ref) ++ lit "...HEAD")
                /\ (~ pull_request -> resolve_diff_range h = resolve_push_range h)).
  { unfold resolve_diff_range, pull_request. fold event_name base_ref.
    destruct (str_eqb event_name (lit "pull_request")) eqn:He.
    - apply str_eqb_eq in He. destruct (truthy base_ref) eqn:Hb.
      + apply truthy_iff in Hb. split; [reflexivity | tauto].
      + apply truthy_false_iff in Hb. split; [tauto | reflexivity].
    - apply str_eqb_neq in He. split; [tauto | reflexivity]. }
  destruct Hpr as (Hr1 & Hr2).
  split; [|split; [exact Hr1 | split; [|split]]].
  - destruct (str_eqb event_name (lit "pull_request")) eqn:He;
      [destruct (truthy base_ref) eqn:Hb|].
    + rewrite Hr1; [discriminate|]. split; [now apply str_eqb_eq | now apply truthy_iff].
    + rewrite Hr2; [exact Hp3|]. apply truthy_false_iff in Hb. intros [_ Hne]. tauto.
    + rewrite Hr2; [exact Hp3|]. apply str_eqb_neq in He. intros [He' _]. tauto.
  - intros Hnpr Hpu. rewrite (Hr2 Hnpr). exact (Hp1 Hpu).
  - intros Hnpr Hnpu. rewrite (Hr2 Hnpr). exact (Hp2 Hnpu).
  - intros Hnone.
    assert (Hnpr : ~ pull_request).
    { unfold pull_request, event_name, getenv. rewrite Hnone. intros [E _]. discriminate. }
    assert (Hnpu : ~ push).
    { unfold push, before_sha, getenv. rewrite Hnone. intros [E _]. congruence. }
    rewrite (Hr2 Hnpr). exact (Hp2 Hnpu).
Qed.

Lemma kept_iff (h : Host) (raw : str) :
  kept h raw = true <->
  raw <> [] /\ path_exists h raw = true /\ path_is_dir h raw = false
  /\ In (str_lower h (path_suffix h raw)) TEXT_EXTENSIONS.
Proof.
  unfold kept. rewrite !andb_true_iff, negb_true_iff, truthy_iff, str_in_iff.
  tauto.
Qed.

(** [main] reads the files the listing returned, in order. *)
Lemma main_reads_eq (h : Host) (files : list str) :
  snd (list_changed_files h (resolve_diff_range h)) = Return files ->
  reads (fst (main h)) = files.
Proof.
  intros Hret. rewrite (main_after_listing h _ Hret).
  destruct files as [|f fs]; [reflexivity|].
  destruct (flat_map (violations_of h) (f :: fs)) as [|v vs]; cbn [fst reads].
  - rewrite reads_app, reads_reads. cbn [reads]. now rewrite app_nil_r.
  - rewrite reads_app, reads_reads. cbn [reads].
    rewrite reads_app, (reads_prints _ (fun v => lit "- " ++ v)).
    cbn [reads app]. now rewrite app_nil_r.
Qed.

Lemma main_reads_listed (h : Host) (p : str) :
  In p (reads (fst (main h))) ->
  exists files,
    snd (list_changed_files h (resolve_diff_range h)) = Return files /\ In p files.
Proof.
  destruct (git h (diff_args (resolve_diff_range h))) as [rc out] eqn:Hgit.
  destruct (N.eq_dec rc 0) as [-> | Hrc].
  - pose proof (list_changed_files_ok h _ _ Hgit) as Hl.
    assert (Hret : snd (list_changed_files h (resolve_diff_range h))
                   = Return (filter (kept h) (splitlines (strip out))))
      by now rewrite Hl.
    rewrite (main_reads_eq h _ Hret). intros Hin.
    exists (filter (kept h) (splitlines (strip out))). split; assumption.
  - rewrite (main_listing_fails h _ _ Hgit Hrc). simpl. contradiction.
Qed.

(** C5: the claim fails on the code for the first line of git's output.
    On [host_leading_space] the line [ a.py] of the output is not empty,
    exists, is not a directory and has the extension [.py], and the change
    lister returns [b.py] only: [run_git_command] strips the whole output,
    so the lister looks for [a.py], which does not exist.  The file is not
    read and the run exits with status 0 although its text holds a Cyrillic
    letter.  On [host_leading_space_second] the same name stands on the
    second line: it is returned, read and reported. *)
Lemma C5_first_name_loses_leading_space :
  splitlines (snd (git host_leading_space
                     [lit "diff"; lit "--name-only"; lit "HEAD~1...HEAD"]))
  = [lit " a.py"; lit "b.py"]
  /\ lit " a.py" <> []
  /\ path_exists host_leading_space (lit " a.py") = true
  /\ path_is_dir host_leading_space (lit " a.py") = false
  /\ str_lower host_leading_space (path_suffix host_leading_space (lit " a.py"))
     = lit ".py"
  /\ str_in (lit ".py") TEXT_EXTENSIONS = true
  /\ read_text host_leading_space (lit " a.py") = Some [0x0416]
  /\ list_changed_files host_leading_space (resolve_diff_range host_leading_space)
     = ([EvGit [lit "diff"; lit "--name-only"; lit "HEAD~1...HEAD"]],
        Return [lit "b.py"])
  /\ script host_leading_space
     = ([ EvGit [lit "diff"; lit "--name-only"; lit "HEAD~1...HEAD"];
          EvRead (lit "b.py");
          EvPrint (lit "No Cyrillic characters detected in changed files.") ],
        0%nat)
  /\ snd (list_changed_files host_leading_space_second
            (resolve_diff_range host_leading_space_second))
     = Return [lit " a.py"; lit "b.py"]
  /\ reads (fst (script host_leading_space_second)) = [lit " a.py"; lit "b.py"]
  /\ stdout (fst (script host_leading_space_second))
     = [ lit "Cyrillic characters detected in changed files:";
         lit "-  a.py:1: " ++ [0x0416];
         lit "Use English for PR descriptions, code comments, logs, and user-facing text in changed files." ]
  /\ snd (script host_leading_space_second) = 1%nat.
Proof. vm_compute. repeat split. discriminate. Qed.

(** X15: when git succeeds, the change lister returns exactly the lines of
    the output [run_git_command] returned (the output of git without the
    whitespace around it) that are non-empty, exist on disk, are not
    directories and whose lowercased extension is in the allow-list, in the
    order of the output; an empty output gives the empty list and no error;
    and [main] reads no file other than these, so a file whose extension is
    not in the allow-list is never scanned. *)
Theorem X15_list_changed_files_filter (h : Host) (diff_range out : str) :
  git h [lit "diff"; lit "--name-only"; diff_range] = (0, out) ->
  let output := strip out in
  let listed raw :=
    raw <> [] /\ path_exists h raw = true /\ path_is_dir h raw = false
    /\ In (str_lower h (path_suffix h raw)) TEXT_EXTENSIONS in
  exists files,
    snd (list_changed_files h diff_range) = Return files
    /\ files = filter (kept h) (splitlines output)
    /\ (forall raw, kept h raw = true <-> listed raw)
    /\ (forall p, In p files <-> In p (splitlines output) /\ listed p)
    /\ (output = [] -> files = [])
    /\ (forall p, In p (reads (fst (main h))) -> listed p).
Proof.
  intros Hgit output listed.
  exists (filter (kept h) (splitlines output)).
  split; [|split; [reflexivity | split; [|split; [|split]]]].
  - unfold output. now rewrite (list_changed_files_ok h _ _ Hgit).
  - intros raw. apply kept_iff.
  - intros p. rewrite filter_In, kept_iff. reflexivity.
  - intros ->. reflexivity.
  - intros p Hp. apply main_reads_listed in Hp.
    destruct Hp as (files & Hret & Hin).
    destruct (git h (diff_args (resolve_diff_range h))) as [rc out'] eqn:Hgit'.
    destruct (N.eq_dec rc 0) as [-> | Hrc].
    + rewrite (list_changed_files_ok h _ _ Hgit') in Hret. simpl in Hret.
      injection Hret as <-. apply filter_In in Hin. apply kept_iff, Hin.
    + rewrite (list_changed_files_fails h _ _ _ Hgit' Hrc) in Hret. discriminate.
Qed.

(** Of the six lines of the listing of [host_5], two files are kept. *)
Lemma X15_list_changed_files_filter_witness :
  git host_5 [lit "diff"; lit "--name-only"; lit "HEAD~1...HEAD"]
  = (0, [0x0A] ++ lit "a.md" ++ [0x0A] ++ lit "img.png" ++ [0x0A] ++ lit "gone.py"
          ++ [0x0A; 0x0A] ++ lit "pkg.py" ++ [0x0A] ++ lit "B.PY" ++ [0x0A])
  /\ exists files,
       snd (list_changed_files host_5 (lit "HEAD~1...HEAD")) = Return files
       /\ files = [lit "a.md"; lit "B.PY"]
       /\ reads (fst (main host_5)) = [lit "a.md"; lit "B.PY"].
Proof.
  split; [reflexivity|].
  destruct (X15_list_changed_files_filter host_5 (lit "HEAD~1...HEAD") _ eq_refl)
    as (files & Hret & Hfiles & _).
  exists files. split; [exact Hret|]. split; [rewrite Hfiles|]; reflexivity.
Defined.

(** C7: when a file cannot be read, the scanner returns the empty sequence
    for it and raises nothing; in the loop over the changed files such a
    file contributes nothing, the loop does not raise, and the files after
    it are still read and scanned. *)
Theorem C7_unreadable_file_is_skipped (h : Host) (path : str) (before after : list str) :
  read_text h path = None ->
  scan_file h path = ([EvRead path], Return [])
  /\ exists vs1 vs2,
       snd (scan_all h before []) = Return vs1
       /\ snd (scan_all h after []) = Return vs2
       /\ snd (scan_all h (before ++ path :: after) []) = Return (vs1 ++ vs2)
       /\ reads (fst (scan_all h (before ++ path :: after) []))
          = before ++ path :: after.
Proof.
  intros Hread.
  assert (Hnone : violations_of h path = [])
    by (unfold violations_of; now rewrite Hread).
  split; [now rewrite scan_file_eq, Hnone|].
  exists (flat_map (violations_of h) before), (flat_map (violations_of h) after).
  rewrite !scan_all_eq. cbn [snd fst app].
  repeat split.
  - rewrite flat_map_app. cbn [flat_map]. now rewrite Hnone.
  - apply reads_reads.
Qed.

(** [locked.py] cannot be read; [a.py] and [c.py] are still reported. *)
Lemma C7_unreadable_file_is_skipped_witness :
  read_text host_7 (lit "locked.py") = None
  /\ scan_file host_7 (lit "locked.py") = ([EvRead (lit "locked.py")], Return [])
  /\ snd (scan_all host_7 [lit "a.py"; lit "locked.py"; lit "c.py"] [])
     = Return [lit "a.py:1: " ++ [0x0416]; lit "c.py:1: " ++ [0x0417]].
Proof.
  split; [reflexivity|].
  destruct (C7_unreadable_file_is_skipped host_7 (lit "locked.py")
              [lit "a.py"] [lit "c.py"] eq_refl)
    as (Hscan & vs1 & vs2 & H1 & H2 & H12 & _).
  split; [exact Hscan|]. reflexivity.
Defined.

(** C8: when the git listing exits with a non-zero status, the change
    lister raises [CalledProcessError], [main] lets it through, and the
    process ends with a non-zero exit status; git was invoked exactly once,
    no file was read and nothing was printed. *)
Theorem C8_git_failure_is_fatal (h : Host) (diff_range out : str) (rc : N) :
  git h [lit "diff"; lit "--name-only"; diff_range] = (rc, out) ->
  rc <> 0 ->
  list_changed_files h diff_range
  = ([EvGit [lit "diff"; lit "--name-only"; diff_range]], Raise (CalledProcessError rc))
  /\ (diff_range = resolve_diff_range h ->
        main h = ([EvGit [lit "diff"; lit "--name-only"; diff_range]],
                  Raise (CalledProcessError rc))
        /\ snd (script h) <> 0%nat
        /\ git_calls (fst (script h)) = [[lit "diff"; lit "--name-only"; diff_range]]
        /\ reads (fst (script h)) = []
        /\ stdout (fst (script h)) = []).
Proof.
  intros Hgit Hrc.
  split; [exact (list_changed_files_fails h _ _ _ Hgit Hrc)|].
  intros ->. unfold script.
  rewrite (main_listing_fails h _ _ Hgit Hrc). cbn [fst snd].
  repeat split. discriminate.
Qed.

(** Git exits with status 128 and [main] raises. *)
Lemma C8_git_failure_is_fatal_witness :
  git host_git_fails [lit "diff"; lit "--name-only"; lit "HEAD~1...HEAD"] = (128, [])
  /\ 128 <> 0
  /\ main host_git_fails
     = ([EvGit [lit "diff"; lit "--name-only"; lit "HEAD~1...HEAD"]],
        Raise (CalledProcessError 128))
  /\ snd (script host_git_fails) <> 0%nat.
Proof.
  assert (Hne : 128 <> 0) by discriminate.
  split; [reflexivity | split; [exact Hne|]].
  destruct (C8_git_failure_is_fatal host_git_fails (lit "HEAD~1...HEAD") [] 128
              eq_refl Hne) as [_ Hmain].
  destruct (Hmain eq_refl) as (Hm & Hs & _).
  split; [exact Hm | exact Hs].
Defined.

(** What the process prints and how it exits once the listing has returned. *)
Lemma script_after_listing (h : Host) (files : list str) :
  snd (list_changed_files h (resolve_diff_range h)) = Return files ->
  let vs := flat_map (violations_of h) files in
  stdout (fst (script h))
  = match files, vs with
    | [], _ => [msg_nothing]
    | _ :: _, [] => [msg_clean]
    | _ :: _, _ :: _ => msg_header :: map (fun v => lit "- " ++ v) vs ++ [msg_closing]
    end
  /\ snd (script h) = match vs with [] => 0%nat | _ :: _ => 1%nat end.
Proof.
  intros Hret vs. unfold script. rewrite (main_after_listing h _ Hret).
  fold vs. destruct files as [|f fs]; [split; reflexivity|].
  destruct vs as [|v vs']; cbn [fst snd stdout].
  - rewrite stdout_app, stdout_reads. split; reflexivity.
  - rewrite stdout_app, stdout_reads. cbn [app stdout].
    rewrite stdout_app, (stdout_prints _ (fun v => lit "- " ++ v)).
    split; reflexivity.
Qed.

(** Every record of a scan names its file, a line number and a preview. *)
Lemma violations_of_shape (h : Host) (path v : str) :
  In v (violations_of h path) ->
  exists k line,
    v = path_str h path ++ lit ":" ++ str_of_nat k ++ lit ": " ++ make_preview line.
Proof.
  unfold violations_of. destruct (read_text h path) as [text|]; [|contradiction].
  rewrite scan_lines_filter. cbn [app]. intros Hv.
  apply in_map_iff in Hv. destruct Hv as [[k line] [<- _]].
  exists k, line. reflexivity.
Qed.

(** C3, as stated, fails: when git exits with a non-zero status the process
    ends with exit status 1 although no file was read and no violation was
    found, and it prints none of the three messages. *)
Lemma C3_counterexample :
  script host_git_fails
  = ([EvGit [lit "diff"; lit "--name-only"; lit "HEAD~1...HEAD"]], 1%nat)
  /\ snd (script host_git_fails) = 1%nat
  /\ reads (fst (script host_git_fails)) = []
  /\ stdout (fst (script host_git_fails)) = [].
Proof. repeat split; reflexivity. Qed.

(** C3, amended: whenever the version-control listing succeeds, with
    [files] the filtered changed files and [vs] the violations found in
    them, the run ends in exactly one of three ways: [files] is empty, it
    prints "No changed text files to scan." and exits 0; files were scanned
    and [vs] is empty, it prints "No Cyrillic characters detected in changed
    files." and exits 0; [vs] is not empty and it exits 1.  In these runs
    the exit status is 1 if and only if there is a violation. *)
Theorem C3_three_outcomes (h : Host) (files : list str) :
  snd (list_changed_files h (resolve_diff_range h)) = Return files ->
  exists vs,
    snd (scan_all h files []) = Return vs
    /\ ((files = []
         /\ stdout (fst (script h)) = [lit "No changed text files to scan."]
         /\ snd (script h) = 0%nat)
        \/ (files <> [] /\ vs = []
            /\ stdout (fst (script h))
               = [lit "No Cyrillic characters detected in changed files."]
            /\ snd (script h) = 0%nat)
        \/ (files <> [] /\ vs <> [] /\ snd (script h) = 1%nat))
    /\ (files = [] -> vs = [])
    /\ (snd (script h) = 1%nat <-> vs <> []).
Proof.
  intros Hret. exists (flat_map (violations_of h) files).
  rewrite scan_all_eq. cbn [snd app]. split; [reflexivity|].
  destruct (script_after_listing h files Hret) as [Hout Hexit].
  destruct files as [|f fs].
  - cbn [flat_map] in *. split; [left; repeat split; assumption|].
    split; [reflexivity|]. rewrite Hexit. split; [discriminate | congruence].
  - destruct (flat_map (violations_of h) (f :: fs)) as [|v vs].
    + split; [right; left; repeat split; try assumption; discriminate|].
      split; [discriminate|]. rewrite Hexit. split; [discriminate | congruence].
    + split; [right; right; repeat split; try assumption; discriminate|].
      split; [discriminate|]. rewrite Hexit. split; [discriminate | reflexivity].
Qed.

(** Scenario A: the listing succeeds and the run exits with status 1. *)
Lemma C3_three_outcomes_witness :
  snd (list_changed_files host_A (resolve_diff_range host_A))
  = Return [lit "a.md"; lit "b.py"]
  /\ exists vs,
       snd (scan_all host_A [lit "a.md"; lit "b.py"] []) = Return vs
       /\ (snd (script host_A) = 1%nat <-> vs <> []).
Proof.
  split; [reflexivity|].
  destruct (C3_three_outcomes host_A [lit "a.md"; lit "b.py"] eq_refl)
    as (vs & Hvs & _ & _ & Hiff).
  exists vs. split; [exact Hvs | exact Hiff].
Defined.

(** C6, as stated, fails: in scenario A the line printed for the violation
    is [- b.py:3: ...], the record preceded by a hyphen and a space, and
    not the record [b.py:3: ...] itself. *)
Lemma C6_counterexample :
  snd (scan_all host_A [lit "a.md"; lit "b.py"] [])
  = Return [lit "b.py:3: z = '" ++ [0x0436] ++ lit "'"]
  /\ stdout (fst (script host_A))
     = [ lit "Cyrillic characters detected in changed files:";
         lit "- b.py:3: z = '" ++ [0x0436] ++ lit "'";
         lit "Use English for PR descriptions, code comments, logs, and user-facing text in changed files." ]
  /\ snd (script host_A) = 1%nat
  /\ nth 1 (stdout (fst (script host_A))) []
     <> format_violation host_A (lit "b.py") 3 (lit "z = '" ++ [0x0436] ++ lit "'").
Proof. vm_compute. repeat split; discriminate. Qed.

(** C6, amended: when the listing succeeds and one or more violations
    exist, the process prints the header line, then one line per violation,
    in violation order, made of a hyphen, a space and the record
    [<path>:<line number>: <preview>], then the closing instructional line,
    and exits with status 1. *)
Theorem C6_report_listing (h : Host) (files vs : list str) :
  snd (list_changed_files h (resolve_diff_range h)) = Return files ->
  snd (scan_all h files []) = Return vs ->
  vs <> [] ->
  stdout (fst (script h))
  = [lit "Cyrillic characters detected in changed files:"]
    ++ map (fun v => lit "- " ++ v) vs
    ++ [lit "Use English for PR descriptions, code comments, logs, and user-facing text in changed files."]
  /\ snd (script h) = 1%nat
  /\ Forall (fun v => exists path k line,
                 In path files
                 /\ v = path_str h path ++ lit ":" ++ str_of_nat k ++ lit ": "
                          ++ make_preview line) vs.
Proof.
  intros Hret Hscan Hne. rewrite scan_all_eq in Hscan. cbn [snd app] in Hscan.
  injection Hscan as <-.
  destruct (script_after_listing h files Hret) as [Hout Hexit].
  split; [|split].
  - rewrite Hout. destruct files as [|f fs]; [now elim Hne|].
    destruct (flat_map (violations_of h) (f :: fs)); [now elim Hne | reflexivity].
  - rewrite Hexit. destruct (flat_map (violations_of h) files);
      [now elim Hne | reflexivity].
  - apply Forall_forall. intros v Hv. apply in_flat_map in Hv.
    destruct Hv as (path & Hpath & Hv). apply violations_of_shape in Hv.
    destruct Hv as (k & line & ->). exists path, k, line. split; [assumption | reflexivity].
Qed.

(** Scenario A: header, one line for [b.py:3], closing line. *)
Lemma C6_report_listing_witness :
  snd (list_changed_files host_A (resolve_diff_range host_A))
  = Return [lit "a.md"; lit "b.py"]
  /\ snd (scan_all host_A [lit "a.md"; lit "b.py"] [])
     = Return [lit "b.py:3: z = '" ++ [0x0436] ++ lit "'"]
  /\ [lit "b.py:3: z = '" ++ [0x0436] ++ lit "'"] <> []
  /\ stdout (fst (script host_A))
     = [ lit "Cyrillic characters detected in changed files:";
         lit "- b.py:3: z = '" ++ [0x0436] ++ lit "'";
         lit "Use English for PR descriptions, code comments, logs, and user-facing text in changed files." ]
  /\ snd (script host_A) = 1%nat.
Proof.
  assert (Hne : [lit "b.py:3: z = '" ++ [0x0436] ++ lit "'"] <> []) by discriminate.
  split; [reflexivity | split; [reflexivity | split; [exact Hne|]]].
  destruct (C6_report_listing host_A [lit "a.md"; lit "b.py"] _ eq_refl eq_refl Hne)
    as (Hout & Hexit & _).
  split; [exact Hout | exact Hexit].
Defined.

(** ** Whitespace, line breaks and the Cyrillic block *)

Lemma cyrillic_not_space (c : char) : in_cyrillic_block c -> is_space c = false.
Proof.
  unfold in_cyrillic_block, is_space. intros Hc.
  repeat match goal with
         | |- (_ || _) = false => apply orb_false_intro
         | |- (_ && _) = false => apply andb_false_iff
         end;
    try (apply N.eqb_neq; lia);
    try (left; apply N.leb_gt; lia);
    try (right; apply N.leb_gt; lia).
Qed.

Lemma cyrillic_not_linebreak (c : char) : in_cyrillic_block c -> is_linebreak c = false.
Proof.
  unfold in_cyrillic_block, is_linebreak. intros Hc.
  repeat match goal with
         | |- (_ || _) = false => apply orb_false_intro
         | |- (_ && _) = false => apply andb_false_iff
         end;
    try (apply N.eqb_neq; lia);
    try (left; apply N.leb_gt; lia);
    try (right; apply N.leb_gt; lia).
Qed.

(** ** Stripping *)

Lemma lstrip_split (s : str) :
  exists a, s = a ++ lstrip s /\ Forall (fun c => is_space c = true) a.
Proof.
  induction s as [|c s [a [E Ha]]]; simpl.
  - exists []. split; [reflexivity | constructor].
  - destruct (is_space c) eqn:Hc.
    + exists (c :: a). split; [simpl; now rewrite <- E | now constructor].
    + exists []. split; [reflexivity | constructor].
Qed.

Lemma lstrip_no_leading (s : str) : no_leading_space (lstrip s).
Proof.
  induction s as [|c s IH]; simpl; [exact I|].
  destruct (is_space c) eqn:Hc; [exact IH | exact Hc].
Qed.

Lemma no_leading_lstrip (s : str) : no_leading_space s -> lstrip s = s.
Proof. destruct s as [|c s]; simpl; [reflexivity | now intros ->]. Qed.

Lemma lstrip_keeps (s : str) (c : char) :
  In c s -> is_space c = false -> In c (lstrip s).
Proof.
  intros Hin Hc. induction s as [|x s IH]; simpl; [contradiction|].
  destruct (is_space x) eqn:Hx; [|exact Hin].
  destruct Hin as [-> | Hin]; [congruence | now apply IH].
Qed.

Lemma rstrip_split (s : str) :
  exists b, s = rstrip s ++ b /\ Forall (fun c => is_space c = true) b.
Proof.
  unfold rstrip. destruct (lstrip_split (rev s)) as [a [E Ha]].
  exists (rev a). split.
  - rewrite <- rev_app_distr, <- E. now rewrite rev_involutive.
  - apply Forall_forall. intros c Hc. apply in_rev in Hc.
    revert c Hc. now apply Forall_forall.
Qed.

Lemma strip_split (s : str) :
  exists a b, s = a ++ strip s ++ b
              /\ Forall (fun c => is_space c = true) a
              /\ Forall (fun c => is_space c = true) b.
Proof.
  destruct (lstrip_split s) as [a [Ea Ha]].
  destruct (rstrip_split (lstrip s)) as [b [Eb Hb]].
  exists a, b. unfold strip. now rewrite <- Eb.
Qed.

Lemma strip_subset (s : str) (c : char) : In c (strip s) -> In c s.
Proof.
  destruct (strip_split s) as (a & b & E & _). intros Hc.
  rewrite E. apply in_or_app. right. apply in_or_app. now left.
Qed.

Lemma strip_keeps (s : str) (c : char) :
  In c s -> is_space c = false -> In c (strip s).
Proof.
  intros Hin Hc. unfold strip, rstrip. apply in_rev. rewrite rev_involutive.
  apply lstrip_keeps; [|exact Hc]. apply -> in_rev. now apply lstrip_keeps.
Qed.

Lemma strip_trimmed (s : str) : trimmed (strip s).
Proof.
  split.
  - destruct (rstrip_split (lstrip s)) as [b [E _]]. fold (strip s) in E.
    pose proof (lstrip_no_leading s) as Hl. rewrite E in Hl.
    destruct (strip s); [exact I | exact Hl].
  - unfold strip, rstrip. rewrite rev_involutive. apply lstrip_no_leading.
Qed.

Lemma trimmed_strip (s : str) : trimmed s -> strip s = s.
Proof.
  intros [Hl Hr]. unfold strip, rstrip.
  rewrite (no_leading_lstrip s Hl), (no_leading_lstrip (rev s) Hr).
  apply rev_involutive.
Qed.

Lemma strip_length (s : str) : (List.length (strip s) <= List.length s)%nat.
Proof.
  destruct (strip_split s) as (a & b & E & _).
  rewrite E at 2. rewrite !length_app. lia.
Qed.

(** ** Lines *)

(** No line of [splitlines s] holds a line boundary, and every character of
    [s] that is not a line boundary is in one of the lines. *)
Lemma splitlines_bounded (n : nat) :
  forall s : str, (List.length s <= n)%nat ->
  (forall line c, In line (splitlines s) -> In c line -> is_linebreak c = false)
  /\ (forall c, In c s -> is_linebreak c = false ->
        exists line, In line (splitlines s) /\ In c line).
Proof.
  induction n as [|n IH]; intros [|c0 rest] Hlen; simpl in Hlen; try lia;
    try (split; [intros line c [] | intros c []]).
  assert (Hrest : (List.length rest <= n)%nat) by lia.
  destruct (IH rest Hrest) as [IHno IHcov].
  simpl. destruct (is_linebreak c0) eqn:Hc0.
  - destruct rest as [|c1 rest1].
    + split.
      * intros line c [<- | []] [].
      * intros c [<- | []] Hc. congruence.
    + destruct ((c0 =? 0x0D) && (c1 =? 0x0A)) eqn:Hcrlf.
      * assert (Hrest1 : (List.length rest1 <= n)%nat) by (simpl in Hrest; lia).
        destruct (IH rest1 Hrest1) as [IHno1 IHcov1].
        apply andb_true_iff in Hcrlf. destruct Hcrlf as [_ Hlf].
        apply N.eqb_eq in Hlf. subst c1.
        split.
        -- intros line c [<- | Hline] Hc; [contradiction | eauto].
        -- intros c [<- | [<- | Hin]] Hc; [congruence | discriminate |].
           destruct (IHcov1 c Hin Hc) as [line [Hl Hcl]].
           exists line. split; [now right | exact Hcl].
      * split.
        -- intros line c [<- | Hline] Hc; [contradiction | eauto].
        -- intros c [<- | Hin] Hc; [congruence|].
           destruct (IHcov c Hin Hc) as [line [Hl Hcl]].
           exists line. split; [now right | exact Hcl].
  - destruct (splitlines rest) as [|l ls] eqn:Hsl.
    + split.
      * intros line c [<- | []] [<- | []]. exact Hc0.
      * intros c [<- | Hin] Hc.
        -- exists [c0]. split; now left.
        -- destruct (IHcov c Hin Hc) as [line [[] _]].
    + split.
      * intros line c [<- | Hline] Hc.
        -- destruct Hc as [<- | Hc]; [exact Hc0|].
           apply (IHno l c); [now left | exact Hc].
        -- apply (IHno line c); [now right | exact Hc].
      * intros c [<- | Hin] Hc.
        -- exists (c0 :: l). split; now left.
        -- destruct (IHcov c Hin Hc) as [line [[<- | Hl] Hcl]].
           ++ exists (c0 :: l). split; [now left | now right].
           ++ exists line. split; [now right | exact Hcl].
Qed.

Lemma splitlines_no_linebreak (s line : str) (c : char) :
  In line (splitlines s) -> In c line -> is_linebreak c = false.
Proof.
  destruct (splitlines_bounded (List.length s) s (Nat.le_refl _)) as [H _].
  apply H.
Qed.

Lemma splitlines_covers (s : str) (c : char) :
  In c s -> is_linebreak c = false ->
  exists line, In line (splitlines s) /\ In c line.
Proof.
  destruct (splitlines_bounded (List.length s) s (Nat.le_refl _)) as [_ H].
  apply H.
Qed.

Lemma enumerate_covers {A : Type} (xs : list A) (start : nat) (x : A) :
  In x xs -> exists k, In (k, x) (enumerate start xs).
Proof.
  revert start; induction xs as [|y xs IH]; intros start Hin; [contradiction|].
  destruct Hin as [-> | Hin].
  - exists start. now left.
  - destruct (IH (S start) Hin) as [k Hk]. exists k. now right.
Qed.

Lemma enumerate_fst_lt {A : Type} (xs : list A) (start k : nat) (x : A) :
  In (k, x) (enumerate start xs) -> (start <= k)%nat.
Proof. intros Hin. now apply enumerate_In in Hin. Qed.

Lemma enumerate_NoDup_fst {A : Type} (xs : list A) (start : nat) :
  NoDup (map fst (enumerate start xs)).
Proof.
  revert start; induction xs as [|x xs IH]; intros start; simpl; constructor.
  - intros Hin. apply in_map_iff in Hin. destruct Hin as [[k y] [E Hin]].
    simpl in E. subst k. apply enumerate_fst_lt in Hin. lia.
  - apply IH.
Qed.

Lemma flat_map_nil {A B : Type} (f : A -> list B) (l : list A) (x : A) :
  flat_map f l = [] -> In x l -> f x = [].
Proof.
  induction l as [|y l IH]; simpl; [contradiction|].
  intros E [-> | Hin]; apply app_eq_nil in E; [tauto | apply IH; tauto].
Qed.

(** ** Whole runs *)

(** Either git succeeds and the listing returns the kept lines of its
    output, or git fails and [main] raises right after the invocation. *)
Lemma listing_cases (h : Host) :
  (exists out,
      git h (diff_args (resolve_diff_range h)) = (0, out)
      /\ snd (list_changed_files h (resolve_diff_range h))
         = Return (filter (kept h) (splitlines (strip out))))
  \/ (exists rc out,
         git h (diff_args (resolve_diff_range h)) = (rc, out) /\ rc <> 0
         /\ main h = ([EvGit (diff_args (resolve_diff_range h))],
                      Raise (CalledProcessError rc))).
Proof.
  destruct (git h (diff_args (resolve_diff_range h))) as [rc out] eqn:Hgit.
  destruct (N.eq_dec rc 0) as [-> | Hrc].
  - left. exists out. split; [reflexivity|].
    now rewrite (list_changed_files_ok h _ _ Hgit).
  - right. exists rc, out. split; [reflexivity | split; [exact Hrc|]].
    exact (main_listing_fails h _ _ Hgit Hrc).
Qed.

(** A line of a readable file that holds a Cyrillic character has its
    record among the violations of the file. *)
Lemma offending_line_recorded (h : Host) (path text line : str) (n : nat) (c : char) :
  read_text h path = Some text ->
  nth_error (splitlines text) n = Some line ->
  In c line -> in_cyrillic_block c ->
  In (format_violation h path (S n) (make_preview line)) (violations_of h path).
Proof.
  intros Hread Hnth Hc Hb. unfold violations_of. rewrite Hread, scan_lines_filter.
  cbn [app]. apply in_map_iff. exists (S n, line). split; [reflexivity|].
  apply filter_In. split.
  - apply enumerate_In. split; [lia|]. simpl. now rewrite Nat.sub_0_r.
  - apply search_iff. exists c. split; assumption.
Qed.

(** The scan of a file whose text has no Cyrillic character, or that cannot
    be read, returns nothing. *)
Lemma clean_file_no_violation (h : Host) (path : str) :
  (forall text c, read_text h path = Some text -> In c text -> ~ in_cyrillic_block c) ->
  violations_of h path = [].
Proof.
  intros Hclean. unfold violations_of.
  destruct (read_text h path) as [text|] eqn:Hread; [|reflexivity].
  rewrite scan_lines_filter. cbn [app].
  destruct (filter offending (enumerate 1 (splitlines text))) as [|[k line] rest] eqn:Hf;
    [reflexivity|].
  assert (Hin : In (k, line) (filter offending (enumerate 1 (splitlines text))))
    by (rewrite Hf; now left).
  apply filter_In in Hin. destruct Hin as [Hin Hoff].
  apply enumerate_In in Hin. destruct Hin as [_ Hnth]. apply nth_error_In in Hnth.
  apply search_iff in Hoff. destruct Hoff as [c [Hc Hb]].
  elim (Hclean text c eq_refl (splitlines_chars text line c Hnth Hc) Hb).
Qed.

Lemma flat_map_all_nil {A B : Type} (f : A -> list B) (l : list A) :
  (forall x, In x l -> f x = []) -> flat_map f l = [].
Proof.
  induction l as [|x l IH]; simpl; intros Hall; [reflexivity|].
  rewrite (Hall x (or_introl eq_refl)). apply IH. intros y Hy. apply Hall. now right.
Qed.

(** X1: the process exits with status 0 if and only if the listing
    succeeded and no listed file that can be read contains a character of
    U+0400..U+04FF: a passing check means that every kept readable file is
    clean, and clean files never make the check fail. *)
Theorem X1_exit_zero_iff_clean (h : Host) :
  snd (script h) = 0%nat <->
  exists files,
    snd (list_changed_files h (resolve_diff_range h)) = Return files
    /\ forall path text c,
         In path files -> read_text h path = Some text -> In c text ->
         c < 0x0400 \/ 0x04FF < c.
Proof.
  destruct (listing_cases h) as [(out & _ & Hret) | (rc & out & Hgit & Hrc & Hmain)].
  - destruct (script_after_listing h _ Hret) as [_ Hex].
    set (files := filter (kept h) (splitlines (strip out))) in *. split.
    + intros Hexit. exists files. split; [exact Hret|]. rewrite Hexit in Hex.
      intros path text c Hpath Hread Hc.
      assert (Hclean : ~ in_cyrillic_block c);
        [|unfold in_cyrillic_block in Hclean; lia].
      intros Hb.
      destruct (splitlines_covers text c Hc (cyrillic_not_linebreak c Hb))
        as (line & Hline & Hcl).
      apply In_nth_error in Hline. destruct Hline as [n Hn].
      pose proof (offending_line_recorded h path text line n c Hread Hn Hcl Hb) as Hrec.
      assert (Hv : In (format_violation h path (S n) (make_preview line))
                     (flat_map (violations_of h) files))
        by (apply in_flat_map; exists path; split; assumption).
      destruct (flat_map (violations_of h) files); [contradiction | discriminate].
    + intros (files' & Hret' & Hclean). rewrite Hret in Hret'.
      injection Hret' as <-.
      rewrite (flat_map_all_nil (violations_of h) files) in Hex; [exact Hex|].
      intros path Hpath. apply clean_file_no_violation.
      intros text c Hread Hc Hb. unfold in_cyrillic_block in Hb.
      destruct (Hclean path text c Hpath Hread Hc); lia.
  - assert (Hex : snd (script h) = 1%nat) by (unfold script; now rewrite Hmain).
    rewrite Hex. split; [discriminate|].
    intros (files & Hret & _).
    rewrite (list_changed_files_fails h _ _ _ Hgit Hrc) in Hret. discriminate.
Qed.

(** Scenario C exits with status 0, and its file is clean. *)
Lemma X1_exit_zero_iff_clean_witness :
  snd (script host_C) = 0%nat
  /\ exists files,
       snd (list_changed_files host_C (resolve_diff_range host_C)) = Return files
       /\ forall path text c,
            In path files -> read_text host_C path = Some text -> In c text ->
            c < 0x0400 \/ 0x04FF < c.
Proof.
  split; [reflexivity|]. exact (proj1 (X1_exit_zero_iff_clean host_C) eq_refl).
Defined.

(** X2: when the listing succeeds and a listed file that can be read
    contains a character of U+0400..U+04FF, the run exits with status 1 and
    prints, for a line [k] of that file holding the character, the line
    [- <path>:<k>: <preview>]. *)
Theorem X2_cyrillic_is_reported (h : Host) (files : list str) (path text : str) (c : char) :
  snd (list_changed_files h (resolve_diff_range h)) = Return files ->
  In path files ->
  read_text h path = Some text ->
  In c text ->
  0x0400 <= c <= 0x04FF ->
  snd (script h) = 1%nat
  /\ exists k line,
       (1 <= k)%nat /\ nth_error (splitlines text) (k - 1) = Some line
       /\ In c line
       /\ In (lit "- " ++ path_str h path ++ lit ":" ++ str_of_nat k ++ lit ": "
                ++ make_preview line)
            (stdout (fst (script h))).
Proof.
  intros Hret Hpath Hread Hc Hb.
  destruct (splitlines_covers text c Hc (cyrillic_not_linebreak c Hb))
    as (line & Hline & Hcl).
  apply In_nth_error in Hline. destruct Hline as [n Hn].
  pose proof (offending_line_recorded h path text line n c Hread Hn Hcl Hb) as Hrec.
  assert (Hv : In (format_violation h path (S n) (make_preview line))
                 (flat_map (violations_of h) files))
    by (apply in_flat_map; exists path; split; assumption).
  destruct (script_after_listing h _ Hret) as [Hout Hex].
  destruct files as [|f fs]; [contradiction|].
  destruct (flat_map (violations_of h) (f :: fs)) as [|v vs] eqn:Hvs;
    [contradiction|].
  split; [exact Hex|]. exists (S n), line.
  split; [lia|]. split; [simpl; now rewrite Nat.sub_0_r|]. split; [exact Hcl|].
  rewrite Hout. right. apply in_or_app. left.
  apply (in_map (fun v => lit "- " ++ v)) in Hv. exact Hv.
Qed.

(** Scenario A: the Cyrillic letter of [b.py] is reported. *)
Lemma X2_cyrillic_is_reported_witness :
  snd (list_changed_files host_A (resolve_diff_range host_A))
  = Return [lit "a.md"; lit "b.py"]
  /\ In (lit "b.py") [lit "a.md"; lit "b.py"]
  /\ read_text host_A (lit "b.py") = Some text_b
  /\ In 0x0436 text_b
  /\ 0x0400 <= 0x0436 <= 0x04FF
  /\ snd (script host_A) = 1%nat.
Proof.
  assert (H2 : In (lit "b.py") [lit "a.md"; lit "b.py"]) by (right; left; reflexivity).
  assert (H4 : In 0x0436 text_b) by (vm_compute; tauto).
  assert (H5 : 0x0400 <= 0x0436 <= 0x04FF) by lia.
  repeat (split; [first [reflexivity | assumption]|]).
  exact (proj1 (X2_cyrillic_is_reported host_A _ _ text_b 0x0436
                  eq_refl H2 eq_refl H4 H5)).
Defined.

(** X3: on every host the process ends with exit status 0 or 1, and the
    status is 0 exactly when the listing succeeded and the scan of the
    listed files found no violation. *)
Theorem X3_exit_status (h : Host) :
  (snd (script h) = 0%nat \/ snd (script h) = 1%nat)
  /\ (snd (script h) = 0%nat <->
        exists files,
          snd (list_changed_files h (resolve_diff_range h)) = Return files
          /\ snd (scan_all h files []) = Return []).
Proof.
  destruct (listing_cases h) as [(out & Hgit & Hret) | (rc & out & Hgit & Hrc & Hmain)].
  - destruct (script_after_listing h _ Hret) as [_ Hex].
    set (files := filter (kept h) (splitlines (strip out))) in *.
    destruct (flat_map (violations_of h) files) as [|v vs] eqn:Hvs.
    + split; [now left|]. split; [|intros _; exact Hex].
      intros _. exists files. split; [exact Hret|].
      rewrite scan_all_eq. cbn [snd app]. now rewrite Hvs.
    + split; [now right|]. rewrite Hex. split; [discriminate|].
      intros (files' & Hret' & Hscan). rewrite Hret in Hret'.
      injection Hret' as <-. rewrite scan_all_eq in Hscan. cbn [snd app] in Hscan.
      rewrite Hvs in Hscan. discriminate.
  - assert (Hex : snd (script h) = 1%nat) by (unfold script; now rewrite Hmain).
    split; [now right|]. rewrite Hex. split; [discriminate|].
    intros (files & Hret & _).
    rewrite (list_changed_files_fails h _ _ _ Hgit Hrc) in Hret. discriminate.
Qed.

(** X5: every run starts with the git invocation
    [git diff --name-only <range>] and performs no other git invocation,
    whether it ends normally or not. *)
Theorem X5_one_git_invocation (h : Host) :
  exists rest,
    fst (script h) = EvGit [lit "diff"; lit "--name-only"; resolve_diff_range h] :: rest
    /\ git_calls rest = []
    /\ git_calls (fst (script h)) = [[lit "diff"; lit "--name-only"; resolve_diff_range h]].
Proof.
  assert (Hgc : forall (ps : list str) (t : list event),
             git_calls (map EvRead ps ++ t) = git_calls t).
  { intros ps t. induction ps as [|p ps IH]; simpl; [reflexivity | exact IH]. }
  assert (Hgp : forall (f : str -> str) (ls : list str) (t : list event),
             git_calls (map (fun v => EvPrint (f v)) ls ++ t) = git_calls t).
  { intros f ls t. induction ls as [|l ls IH]; simpl; [reflexivity | exact IH]. }
  fold (diff_args (resolve_diff_range h)).
  destruct (listing_cases h) as [(out & Hgit & Hret) | (rc & out & Hgit & Hrc & Hmain)].
  - unfold script. rewrite (main_after_listing h _ Hret).
    destruct (filter (kept h) (splitlines (strip out))) as [|f fs].
    + eexists. cbn [fst]. repeat split.
    + destruct (flat_map (violations_of h) (f :: fs)) as [|v vs]; cbn [fst].
      * eexists. split; [reflexivity|]. cbn [git_calls]. rewrite Hgc. split; reflexivity.
      * eexists. split; [reflexivity|]. cbn [git_calls]. rewrite Hgc.
        cbn [git_calls]. rewrite (Hgp (fun v => lit "- " ++ v)). split; reflexivity.
  - unfold script. rewrite Hmain. eexists. cbn [fst]. repeat split.
Qed.

(** X6: when the listing returns [files], the run is the git invocation,
    then one read of each listed file, in listing order, then the printed
    lines: every listed file is read exactly once, also after a violation
    has been found, and nothing is printed before the last file is read. *)
Theorem X6_read_all_then_report (h : Host) (files : list str) :
  snd (list_changed_files h (resolve_diff_range h)) = Return files ->
  fst (script h)
  = [EvGit [lit "diff"; lit "--name-only"; resolve_diff_range h]]
    ++ map EvRead files ++ map EvPrint (stdout (fst (script h)))
  /\ reads (fst (script h)) = files.
Proof.
  intros Hret. split.
  - destruct (script_after_listing h _ Hret) as [Hout _]. rewrite Hout.
    unfold script. rewrite (main_after_listing h _ Hret).
    destruct files as [|f fs]; [reflexivity|].
    destruct (flat_map (violations_of h) (f :: fs)) as [|v vs]; cbn [fst app].
    + reflexivity.
    + assert (E : forall (a b : str) (l : list str),
                 map EvPrint (a :: map (fun v => lit "- " ++ v) l ++ [b])
                 = EvPrint a :: map (fun v => EvPrint (lit "- " ++ v)) l ++ [EvPrint b])
        by (intros a b l; cbn [map]; rewrite map_app, map_map; reflexivity).
      rewrite E. reflexivity.
  - unfold script. pose proof (main_reads_eq h _ Hret) as Hr.
    destruct (main h) as [t [code | e]]; exact Hr.
Qed.

(** Scenario A: both files are read before the report is printed. *)
Lemma X6_read_all_then_report_witness :
  snd (list_changed_files host_A (resolve_diff_range host_A))
  = Return [lit "a.md"; lit "b.py"]
  /\ reads (fst (script host_A)) = [lit "a.md"; lit "b.py"].
Proof.
  split; [reflexivity|].
  exact (proj2 (X6_read_all_then_report host_A [lit "a.md"; lit "b.py"] eq_refl)).
Defined.

(** X7: the loop over the changed files never raises and composes: scanning
    [l1 ++ l2] reads the files of [l1], then those of [l2], and returns the
    accumulated violations followed by those of [l1] and then those of
    [l2]. *)
Theorem X7_scan_all_app (h : Host) (l1 l2 acc : list str) :
  exists vs1 vs2,
    scan_all h l1 [] = (map EvRead l1, Return vs1)
    /\ scan_all h l2 [] = (map EvRead l2, Return vs2)
    /\ scan_all h (l1 ++ l2) acc
       = (map EvRead l1 ++ map EvRead l2, Return (acc ++ vs1 ++ vs2)).
Proof.
  exists (flat_map (violations_of h) l1), (flat_map (violations_of h) l2).
  rewrite !scan_all_eq. cbn [app].
  repeat split. now rewrite map_app, flat_map_app.
Qed.

(** ** Records and previews *)

Lemma NoDup_map_filter_fst {A B : Type} (p : A * B -> bool) (l : list (A * B)) :
  NoDup (map fst l) -> NoDup (map fst (filter p l)).
Proof.
  induction l as [|x l IH]; simpl; intros Hnd; [constructor|].
  inversion Hnd as [|y ys Hnotin Hnd']; subst.
  destruct (p x); simpl; [|now apply IH].
  constructor; [|now apply IH].
  intros Hin. apply Hnotin. apply in_map_iff in Hin.
  destruct Hin as [z [E Hz]]. apply filter_In in Hz.
  rewrite <- E. apply in_map. tauto.
Qed.

Lemma NoDup_map_by_key {A B K : Type} (f : A -> B) (key : A -> K) (l : list A) :
  (forall x y, f x = f y -> key x = key y) ->
  NoDup (map key l) -> NoDup (map f l).
Proof.
  intros Hkey. induction l as [|x l IH]; simpl; intros Hnd; [constructor|].
  inversion Hnd as [|y ys Hnotin Hnd']; subst.
  constructor; [|now apply IH].
  intros Hin. apply Hnotin. apply in_map_iff in Hin.
  destruct Hin as [z [E Hz]]. apply Hkey in E. rewrite <- E. now apply in_map.
Qed.

(** X8: the records [scan_file] returns for one file are pairwise distinct:
    no line of the report for a file is repeated. *)
Theorem X8_records_are_distinct (h : Host) (path : str) :
  exists vs, snd (scan_file h path) = Return vs /\ NoDup vs.
Proof.
  exists (violations_of h path). rewrite scan_file_eq. split; [reflexivity|].
  unfold violations_of. destruct (read_text h path) as [text|]; [|constructor].
  rewrite scan_lines_filter. cbn [app].
  apply NoDup_map_by_key with (key := fst).
  - intros [k1 l1] [k2 l2] E. unfold record_of in E. cbn [fst snd] in *.
    now apply format_violation_inj in E.
  - apply NoDup_map_filter_fst, enumerate_NoDup_fst.
Qed.

Lemma firstn_subset {A : Type} (n : nat) (l : list A) (x : A) :
  In x (firstn n l) -> In x l.
Proof.
  intros Hin. rewrite <- (firstn_skipn n l). apply in_or_app. now left.
Qed.

(** A character of a preview is a character of the line, or the full stop
    of the ellipsis. *)
Lemma make_preview_chars (line : str) (c : char) :
  In c (make_preview line) -> In c line \/ c = 0x2E.
Proof.
  destruct (Nat.le_gt_cases (List.length (strip line)) 180) as [Hle | Hgt].
  - rewrite (make_preview_short _ Hle). intros Hc. left. now apply strip_subset.
  - rewrite (make_preview_long _ Hgt). intros Hc. apply in_app_or in Hc.
    destruct Hc as [Hc | Hc].
    + left. eapply strip_subset, firstn_subset, Hc.
    + right. simpl in Hc. intuition congruence.
Qed.

(** X9: a preview never starts or ends with whitespace (stripping it again
    changes nothing); for a line that holds a Cyrillic character the preview
    is not empty, and it still holds a Cyrillic character when the trimmed
    line was short enough not to be cut. *)
Theorem X9_preview_is_trimmed (line : str) :
  strip (make_preview line) = make_preview line
  /\ (forall c t, make_preview line = c :: t -> is_space c = false)
  /\ (forall t c, make_preview line = t ++ [c] -> is_space c = false)
  /\ (search CYRILLIC_PATTERN line = true ->
        make_preview line <> []
        /\ ((List.length (strip line) <= 180)%nat ->
              search CYRILLIC_PATTERN (make_preview line) = true)).
Proof.
  assert (Htr : trimmed (make_preview line)).
  { pose proof (strip_trimmed line) as [Hl Hr].
    destruct (Nat.le_gt_cases (List.length (strip line)) 180) as [Hle | Hgt].
    - rewrite (make_preview_short _ Hle). now split.
    - rewrite (make_preview_long _ Hgt). split.
      + destruct (strip line) as [|c t]; [simpl in Hgt; lia | exact Hl].
      + rewrite rev_app_distr. reflexivity. }
  split; [now apply trimmed_strip|]. destruct Htr as [Hl Hr].
  split; [|split].
  - intros c t E. rewrite E in Hl. exact Hl.
  - intros t c E. rewrite E, rev_app_distr in Hr. exact Hr.
  - intros Hs. apply search_iff in Hs. destruct Hs as [c [Hc Hb]].
    pose proof (strip_keeps line c Hc (cyrillic_not_space c Hb)) as Hin.
    split.
    + destruct (Nat.le_gt_cases (List.length (strip line)) 180) as [Hle | Hgt].
      * rewrite (make_preview_short _ Hle). intros E. now rewrite E in Hin.
      * rewrite (make_preview_long _ Hgt). intros E.
        apply (f_equal (@List.length char)) in E.
        rewrite length_app, firstn_length_le in E by lia. simpl in E. lia.
    + intros Hle. rewrite (make_preview_short _ Hle).
      apply search_iff. exists c. split; assumption.
Qed.

(** X10: no preview holds a line boundary: every record [scan_file] returns
    ends with a preview that fits on one line of the report. *)
Theorem X10_preview_on_one_line (h : Host) (path : str) :
  exists vs,
    snd (scan_file h path) = Return vs
    /\ Forall (fun v => exists k preview,
                   v = path_str h path ++ lit ":" ++ str_of_nat k ++ lit ": " ++ preview
                   /\ forall c, In c preview -> is_linebreak c = false) vs.
Proof.
  exists (violations_of h path). rewrite scan_file_eq. split; [reflexivity|].
  unfold violations_of. destruct (read_text h path) as [text|]; [|constructor].
  rewrite scan_lines_filter. cbn [app]. apply Forall_forall. intros v Hv.
  apply in_map_iff in Hv. destruct Hv as [[k line] [<- Hin]].
  apply filter_In in Hin. destruct Hin as [Hin _].
  apply enumerate_In in Hin. destruct Hin as [_ Hnth]. apply nth_error_In in Hnth.
  exists k, (make_preview line). split; [reflexivity|].
  intros c Hc. apply make_preview_chars in Hc. destruct Hc as [Hc | ->].
  - exact (splitlines_no_linebreak text line c Hnth Hc).
  - reflexivity.
Qed.

(** ** The listing and the range *)

(** X11: when git succeeds, every path the change lister returns is a
    non-empty name without line boundary; and when no line of the output
    [run_git_command] returned (the output of git without the whitespace
    around it) is repeated, no path is returned twice, so that the run
    reads no file twice. *)
Theorem X11_listed_paths (h : Host) (out : str) :
  git h [lit "diff"; lit "--name-only"; resolve_diff_range h] = (0, out) ->
  exists files,
    snd (list_changed_files h (resolve_diff_range h)) = Return files
    /\ (forall p, In p files ->
          p <> [] /\ forall c, In c p -> is_linebreak c = false)
    /\ (NoDup (splitlines (strip out)) ->
          NoDup files /\ NoDup (reads (fst (script h)))).
Proof.
  intros Hgit.
  assert (Hret : snd (list_changed_files h (resolve_diff_range h))
                 = Return (filter (kept h) (splitlines (strip out))))
    by now rewrite (list_changed_files_ok h _ _ Hgit).
  exists (filter (kept h) (splitlines (strip out))).
  split; [exact Hret | split].
  - intros p Hp. apply filter_In in Hp. destruct Hp as [Hin Hk].
    apply kept_iff in Hk. split; [tauto|].
    intros c Hc. exact (splitlines_no_linebreak _ p c Hin Hc).
  - intros Hnd. assert (Hf : NoDup (filter (kept h) (splitlines (strip out))))
      by now apply NoDup_filter.
    split; [exact Hf|].
    unfold script. pose proof (main_reads_eq h _ Hret) as Hr.
    destruct (main h) as [t [code | e]]; cbn [fst] in *; now rewrite Hr.
Qed.

(** The listing of [host_5]: two names, both read once. *)
Lemma X11_listed_paths_witness :
  git host_5 [lit "diff"; lit "--name-only"; resolve_diff_range host_5]
  = (0, [0x0A] ++ lit "a.md" ++ [0x0A] ++ lit "img.png" ++ [0x0A] ++ lit "gone.py"
          ++ [0x0A; 0x0A] ++ lit "pkg.py" ++ [0x0A] ++ lit "B.PY" ++ [0x0A])
  /\ exists files,
       snd (list_changed_files host_5 (resolve_diff_range host_5)) = Return files
       /\ forall p, In p files ->
            p <> [] /\ forall c, In c p -> is_linebreak c = false.
Proof.
  split; [reflexivity|].
  destruct (X11_listed_paths host_5 _ eq_refl) as (files & Hret & Hshape & _).
  exists files. split; [exact Hret | exact Hshape].
Defined.

(** X12: when git exits with status 0, [run_git_command] returns its
    standard output without the whitespace around it: the result neither
    starts nor ends with a whitespace character, it is unchanged by another
    [strip], and the output of git is the result between two runs of
    whitespace. *)
Theorem X12_run_git_command_trims (h : Host) (args : list str) (out : str) :
  git h args = (0, out) ->
  exists output,
    run_git_command h args = ([EvGit args], Return output)
    /\ strip output = output
    /\ (forall c t, output = c :: t -> is_space c = false)
    /\ (forall t c, output = t ++ [c] -> is_space c = false)
    /\ exists a b,
         out = a ++ output ++ b
         /\ Forall (fun c => is_space c = true) a
         /\ Forall (fun c => is_space c = true) b.
Proof.
  intros Hgit. exists (strip out).
  split; [exact (run_git_command_ok h _ _ Hgit)|].
  destruct (strip_trimmed out) as [Hl Hr].
  split; [apply trimmed_strip; now split|].
  split; [|split].
  - intros c t E. rewrite E in Hl. exact Hl.
  - intros t c E. rewrite E, rev_app_distr in Hr. exact Hr.
  - apply strip_split.
Qed.

(** The output of git on [host_5] starts and ends with a line feed. *)
Lemma X12_run_git_command_trims_witness :
  git host_5 [lit "status"]
  = (0, [0x0A] ++ lit "a.md" ++ [0x0A] ++ lit "img.png" ++ [0x0A] ++ lit "gone.py"
          ++ [0x0A; 0x0A] ++ lit "pkg.py" ++ [0x0A] ++ lit "B.PY" ++ [0x0A])
  /\ exists output,
       run_git_command host_5 [lit "status"] = ([EvGit [lit "status"]], Return output)
       /\ strip output = output.
Proof.
  split; [reflexivity|].
  destruct (X12_run_git_command_trims host_5 [lit "status"] _ eq_refl)
    as (output & Hrun & Hstrip & _).
  exists output. split; [exact Hrun | exact Hstrip].
Defined.

(** The three ways [resolve_diff_range] returns. *)
Lemma resolve_diff_range_cases (h : Host) :
  (getenv h (lit "GITHUB_BASE_REF") [] <> []
   /\ resolve_diff_range h
      = (lit "origin/" ++ getenv h (lit "GITHUB_BASE_REF") []) ++ lit "...HEAD")
  \/ (getenv h (lit "GITHUB_EVENT_BEFORE") [] <> []
      /\ getenv h (lit "GITHUB_SHA") [] <> []
      /\ resolve_diff_range h
         = getenv h (lit "GITHUB_EVENT_BEFORE") [] ++ lit "..."
             ++ getenv h (lit "GITHUB_SHA") [])
  \/ resolve_diff_range h = lit "HEAD~1...HEAD".
Proof.
  assert (Hpush :
    (getenv h (lit "GITHUB_EVENT_BEFORE") [] <> []
     /\ getenv h (lit "GITHUB_SHA") [] <> []
     /\ resolve_push_range h
        = getenv h (lit "GITHUB_EVENT_BEFORE") [] ++ lit "..."
            ++ getenv h (lit "GITHUB_SHA") [])
    \/ resolve_push_range h = lit "HEAD~1...HEAD").
  { unfold resolve_push_range.
    destruct (truthy (getenv h (lit "GITHUB_EVENT_BEFORE") [])) eqn:Hb;
      cbn [andb]; [|now right].
    destruct (str_eqb (getenv h (lit "GITHUB_EVENT_BEFORE") [])
                (lit "0000000000000000000000000000000000000000"));
      cbn [andb negb]; [now right|].
    destruct (truthy (getenv h (lit "GITHUB_SHA") [])) eqn:Hs; [|now right].
    left. apply truthy_iff in Hb, Hs. repeat split; assumption. }
  unfold resolve_diff_range.
  destruct (str_eqb (getenv h (lit "GITHUB_EVENT_NAME") []) (lit "pull_request"));
    [|now right].
  destruct (truthy (getenv h (lit "GITHUB_BASE_REF") [])) eqn:Hb; [|now right].
  left. apply truthy_iff in Hb. split; [exact Hb | reflexivity].
Qed.

(** X13: the resolved range is always a three-dot range: a non-empty left
    revision, three full stops and a non-empty right revision. *)
Theorem X13_range_is_three_dot (h : Host) :
  exists left right,
    left <> [] /\ right <> []
    /\ resolve_diff_range h = left ++ lit "..." ++ right.
Proof.
  destruct (resolve_diff_range_cases h) as [[Hb E] | [(Hb & Hs & E) | E]].
  - exists (lit "origin/" ++ getenv h (lit "GITHUB_BASE_REF") []), (lit "HEAD").
    split; [discriminate | split; [discriminate|]].
    rewrite E. reflexivity.
  - exists (getenv h (lit "GITHUB_EVENT_BEFORE") []), (getenv h (lit "GITHUB_SHA") []).
    repeat split; assumption.
  - exists (lit "HEAD~1"), (lit "HEAD").
    split; [discriminate | split; [discriminate | exact E]].
Qed.

(** X14: the resolved range depends on four environment variables only:
    two hosts that agree on [GITHUB_EVENT_NAME], [GITHUB_BASE_REF],
    [GITHUB_EVENT_BEFORE] and [GITHUB_SHA] resolve the same range, whatever
    their other variables, their git and their files. *)
Theorem X14_range_reads_four_variables (h1 h2 : Host) :
  (forall name,
      In name [lit "GITHUB_EVENT_NAME"; lit "GITHUB_BASE_REF";
               lit "GITHUB_EVENT_BEFORE"; lit "GITHUB_SHA"] ->
      environ h1 name = environ h2 name) ->
  resolve_diff_range h1 = resolve_diff_range h2.
Proof.
  intros Hsame.
  assert (Hget : forall name,
             In name [lit "GITHUB_EVENT_NAME"; lit "GITHUB_BASE_REF";
                      lit "GITHUB_EVENT_BEFORE"; lit "GITHUB_SHA"] ->
             getenv h1 name [] = getenv h2 name []).
  { intros name Hin. unfold getenv. now rewrite (Hsame name Hin). }
  unfold resolve_diff_range, resolve_push_range.
  rewrite (Hget (lit "GITHUB_EVENT_NAME")) by (simpl; tauto).
  rewrite (Hget (lit "GITHUB_BASE_REF")) by (simpl; tauto).
  rewrite (Hget (lit "GITHUB_EVENT_BEFORE")) by (simpl; tauto).
  rewrite (Hget (lit "GITHUB_SHA")) by (simpl; tauto).
  reflexivity.
Qed.

(** Two hosts with the same push variables. *)
Lemma X14_range_reads_four_variables_witness :
  (forall name,
      In name [lit "GITHUB_EVENT_NAME"; lit "GITHUB_BASE_REF";
               lit "GITHUB_EVENT_BEFORE"; lit "GITHUB_SHA"] ->
      environ host_push name = environ host_push_elsewhere name)
  /\ resolve_diff_range host_push = resolve_diff_range host_push_elsewhere.
Proof.
  assert (Hsame : forall name,
             In name [lit "GITHUB_EVENT_NAME"; lit "GITHUB_BASE_REF";
                      lit "GITHUB_EVENT_BEFORE"; lit "GITHUB_SHA"] ->
             environ host_push name = environ host_push_elsewhere name).
  { intros name [<- | [<- | [<- | [<- | []]]]]; reflexivity. }
  split; [exact Hsame|].
  exact (X14_range_reads_four_variables host_push host_push_elsewhere Hsame).
Defined.
